(** * chatbox2md: the conversion pipeline of [convert.js]

    A shallow embedding of the timestamp normalizer, the file-name
    sanitizer, the Markdown renderer, the Cherry Studio adapter and the
    two file-name builders of the repository, with the properties of the
    specification stated and settled against them.

    Modelling conventions
    - A JavaScript string is a [string]; every character stands for one
      UTF-16 code unit below 256.  [toLowerCase] and [toUpperCase] map the
      ASCII and the Latin-1 letters as JavaScript does; the two code units
      whose upper case is not below 256 are left as they are, and a
      property that shows the upper case of a string excludes them.
    - A field of the parsed JSON holds a value of the type the script
      uses it at, or is absent; the values of another type that make the
      script throw are modelled where the script reads them in a [try]
      block.
    - A JavaScript number is an integer [Z] or [NaN]; a [Date] is its time
      value, [option Z], where [None] is the Invalid Date.
    - The host environment (clock, [Date.parse], local time zone, file
      system, zip reader, [JSON.parse]) is a record the functions take as
      an argument.
    - [console] output and clock reads are threaded through a small state
      monad. *)

From Stdlib Require Import ZArith List Bool Ascii String Lia.
Import ListNotations.

Open Scope string_scope.

(** ** Strings *)

Module Str.

Definition code (c : ascii) : N := N_of_ascii c.

Definition between (lo hi c : ascii) : bool :=
  (code lo <=? code c)%N && (code c <=? code hi)%N.

Definition isUnderscore (c : ascii) : bool := Ascii.eqb c "_".

(** The character class [a-zA-Z0-9-_]. *)
Definition isNameChar (c : ascii) : bool :=
  between "a" "z" c || between "A" "Z" c || between "0" "9" c
  || Ascii.eqb c "-" || isUnderscore c.

Definition startsWithUnderscore (s : string) : bool :=
  match s with
  | String c _ => isUnderscore c
  | EmptyString => false
  end.

Fixpoint endsWithUnderscore (s : string) : bool :=
  match s with
  | EmptyString => false
  | String c EmptyString => isUnderscore c
  | String _ r => endsWithUnderscore r
  end.

Definition isEmpty (s : string) : bool :=
  match s with
  | EmptyString => true
  | String _ _ => false
  end.

(** [s || d] on strings: the empty string is falsy. *)
Definition orElse (s d : string) : string := if isEmpty s then d else s.

Fixpoint forallb (p : ascii -> bool) (s : string) : bool :=
  match s with
  | EmptyString => true
  | String c r => p c && forallb p r
  end.

Fixpoint map (f : ascii -> ascii) (s : string) : string :=
  match s with
  | EmptyString => EmptyString
  | String c r => String (f c) (map f r)
  end.

Definition inRange (lo hi : N) (c : ascii) : bool :=
  (lo <=? code c)%N && (code c <=? hi)%N.

(** The upper case of a code unit, when it is one code unit: the letters
    a-z, and the Latin-1 letters 224-254 but for the division sign 247,
    are 32 below. *)
Definition upperChar (c : ascii) : ascii :=
  if between "a" "z" c || inRange 224 254 c && negb (code c =? 247)%N
  then ascii_of_N (code c - 32) else c.

(** The lower case of a code unit: the letters A-Z, and the Latin-1
    letters 192-222 but for the multiplication sign 215, are 32 above. *)
Definition lowerChar (c : ascii) : ascii :=
  if between "A" "Z" c || inRange 192 222 c && negb (code c =? 215)%N
  then ascii_of_N (code c + 32) else c.

(** The upper case of one code unit: the sharp s, 223, becomes [SS]. *)
Definition upperUnit (c : ascii) : string :=
  if (code c =? 223)%N then "SS" else String (upperChar c) EmptyString.

Fixpoint toUpperCase (s : string) : string :=
  match s with
  | EmptyString => EmptyString
  | String c r => upperUnit c ++ toUpperCase r
  end.

Definition toLowerCase : string -> string := map lowerChar.

(** The code units whose upper case is one code unit below 256: all but
    the sharp s, and the micro sign 181 and the y with diaeresis 255, whose
    upper case JavaScript takes from beyond 255 and [upperChar] does not
    change. *)
Definition simpleUpper (c : ascii) : bool :=
  negb (code c =? 181)%N && negb (code c =? 223)%N && negb (code c =? 255)%N.

Definition upperIsSimple : string -> bool := forallb simpleUpper.

Definition isCapital (c : ascii) : bool := between "A" "Z" c.

(** No [SS] in the string. *)
Fixpoint noDoubleS (s : string) : bool :=
  match s with
  | EmptyString => true
  | String a r =>
      negb (Ascii.eqb a "S"
            && match r with
               | String b _ => Ascii.eqb b "S"
               | EmptyString => false
               end)
      && noDoubleS r
  end.

End Str.

(** ** [sanitizeFileName] *)

(** [.replace(/[^a-zA-Z0-9-_]/g, '_')] *)
Definition replaceInvalid : string -> string :=
  Str.map (fun c => if Str.isNameChar c then c else "_"%char).

(** [.replace(/_+/g, '_')]: every maximal run of underscores becomes one. *)
Fixpoint collapseUnderscores (s : string) : string :=
  match s with
  | EmptyString => EmptyString
  | String c r =>
      let r' := collapseUnderscores r in
      if Str.isUnderscore c && Str.startsWithUnderscore r' then r'
      else String c r'
  end.

(** [.replace(/^_+|_+$/g, '')], the [^_+] alternative. *)
Fixpoint trimLeading (s : string) : string :=
  match s with
  | EmptyString => EmptyString
  | String c r => if Str.isUnderscore c then trimLeading r else s
  end.

(** [.replace(/^_+|_+$/g, '')], the [_+$] alternative. *)
Fixpoint trimTrailing (s : string) : string :=
  match s with
  | EmptyString => EmptyString
  | String c r =>
      let r' := trimTrailing r in
      if Str.isUnderscore c && Str.isEmpty r' then EmptyString
      else String c r'
  end.

Definition trimUnderscores (s : string) : string :=
  trimTrailing (trimLeading s).

Definition placeholderName : string := "unnamed_chat".

(** [sanitized.substring(0, maxLength)]; a negative bound counts as 0. *)
Definition truncate (maxLength : Z) (s : string) : string :=
  if (maxLength <? Z.of_nat (String.length s))%Z
  then substring 0 (Z.to_nat maxLength) s
  else s.

(** The three [replace] calls. *)
Definition cleaned (name : string) : string :=
  trimUnderscores (collapseUnderscores (replaceInvalid name)).

Definition sanitizeFileName (name : string) (maxLength : Z) : string :=
  let sanitized := cleaned name in
  let sanitized := truncate maxLength sanitized in
  Str.orElse sanitized placeholderName.

(** The default argument [maxLength = 50]. *)
Definition sanitizeFileName50 (name : string) : string :=
  sanitizeFileName name 50.

(** ** JavaScript values, the host and the effects *)

(** The values a timestamp field of the parsed JSON can hold, and
    [undefined] for an absent field. *)
Inductive jsval : Type :=
  | VUndefined
  | VNull
  | VBool (b : bool)
  | VNum (n : Z)
  | VNaN
  | VStr (s : string).

(** ToBoolean. *)
Definition truthy (v : jsval) : bool :=
  match v with
  | VUndefined | VNull | VNaN => false
  | VBool b => b
  | VNum n => negb (n =? 0)%Z
  | VStr s => negb (Str.isEmpty s)
  end.

Record zipEntry : Type := {
  entryName : string;
  isDirectory : bool;
  entryText : string          (* [zip.readAsText(entry)] *)
}.

(** An entry of the [log] array the adapter can convert: its [role] and
    its [content], [None] when absent or falsy, and its [timestamp]. *)
Record logItem : Type := {
  e_role : option string;
  e_content : option string;
  e_timestamp : jsval
}.

(** An entry of the [log] array: one of the above, or [null], or an object
    whose [role] is truthy and not a string (a number, [true], an object,
    an array). *)
Inductive logEntry : Type :=
  | Entry (e : logItem)
  | NullEntry
  | RoleNotAString.

(** What [JSON.parse] returns for a Cherry Studio file: [null], or a value
    with its [title], [None] when absent or falsy, and its [log] when that
    is an array. *)
Record payload : Type := {
  p_title : option string;
  p_log : option (list logEntry)
}.

Record Host : Type := {
  clock : nat -> Z;                         (* n-th reading of the system clock, ms *)
  Date_parse : string -> option Z;          (* [None] is NaN *)
  LocalTZA : Z -> Z;                        (* local offset at a UTC instant, ms *)
  path_basename : string -> string -> string;
  path_extname : string -> string;
  openZip : string -> option (list zipEntry);     (* [None]: AdmZip throws *)
  readFileSync : string -> option string;         (* [None]: throws *)
  JSON_parse : string -> option (option payload)
                                 (* [None]: SyntaxError; [Some None]: null *)
}.

Inductive level : Type := Log | Warn | Error.

Record World : Type := {
  ticks : nat;                      (* clock readings made so far *)
  console : list (level * string)   (* console output, oldest first *)
}.

Definition M (A : Type) : Type := World -> A * World.

Definition ret {A} (a : A) : M A := fun w => (a, w).

Definition bind {A B} (m : M A) (k : A -> M B) : M B :=
  fun w => let (a, w') := m w in k a w'.

Declare Scope monad_scope.
Delimit Scope monad_scope with monad.
Notation "x <- m ;; k" := (bind m (fun x => k))
  (at level 61, m at next level, right associativity) : monad_scope.
Notation "' p <- m ;; k" := (bind m (fun x => let 'p := x in k))
  (at level 61, p pattern, m at next level, right associativity) : monad_scope.
Notation "m ;;; k" := (bind m (fun _ => k))
  (at level 61, right associativity) : monad_scope.
Open Scope monad_scope.

(** [Date.now()], and the time value of [new Date()]. *)
Definition Date_now (h : Host) : M Z :=
  fun w => (clock h (ticks w),
            {| ticks := S (ticks w); console := console w |}).

Definition say (l : level) (text : string) : M unit :=
  fun w => (tt, {| ticks := ticks w; console := console w ++ [(l, text)] |}).

Definition run {A} (m : M A) (w : World) : A := fst (m w).

Definition world0 : World := {| ticks := 0; console := [] |}.

(** ** Dates *)

Open Scope Z_scope.

(** TimeClip. *)
Definition TimeClip (t : Z) : option Z :=
  if Z.abs t <=? 8640000000000000 then Some t else None.

(** The time value of [new Date(v)]; [None] is the Invalid Date. *)
Definition Date_new (h : Host) (v : jsval) : option Z :=
  match v with
  | VUndefined => None
  | VNull => TimeClip 0
  | VBool b => TimeClip (if b then 1 else 0)
  | VNum n => TimeClip n
  | VNaN => None
  | VStr s => match Date_parse h s with
              | Some t => TimeClip t
              | None => None
              end
  end.

Definition msPerDay : Z := 86400000.

(** YearFromTime, MonthFromTime + 1 and DateFromTime of a time value, in
    closed form over the proleptic Gregorian calendar. *)
Definition civil (t : Z) : Z * Z * Z :=
  let z := t / msPerDay + 719468 in
  let era := z / 146097 in
  let doe := z - era * 146097 in
  let yoe := (doe - doe / 1460 + doe / 36524 - doe / 146096) / 365 in
  let doy := doe - (365 * yoe + yoe / 4 - yoe / 100) in
  let mp := (5 * doy + 2) / 153 in
  let d := doy - (153 * mp + 2) / 5 + 1 in
  let m := if mp <? 10 then mp + 3 else mp - 9 in
  let y := yoe + era * 400 + (if m <=? 2 then 1 else 0) in
  (y, m, d).

Definition HourFromTime (t : Z) : Z := (t / 3600000) mod 24.
Definition MinFromTime (t : Z) : Z := (t / 60000) mod 60.
Definition SecFromTime (t : Z) : Z := (t / 1000) mod 60.
Definition msFromTime (t : Z) : Z := t mod 1000.

Definition LocalTime (h : Host) (t : Z) : Z := t + LocalTZA h t.

(** The getters; [None] is NaN. *)
Definition getFullYear (h : Host) (d : option Z) : option Z :=
  option_map (fun t => let '(y, _, _) := civil (LocalTime h t) in y) d.
(** [getMonth() + 1] *)
Definition getMonth1 (h : Host) (d : option Z) : option Z :=
  option_map (fun t => let '(_, m, _) := civil (LocalTime h t) in m) d.
Definition getDate (h : Host) (d : option Z) : option Z :=
  option_map (fun t => let '(_, _, dd) := civil (LocalTime h t) in dd) d.
Definition getHours (h : Host) (d : option Z) : option Z :=
  option_map (fun t => HourFromTime (LocalTime h t)) d.
Definition getMinutes (h : Host) (d : option Z) : option Z :=
  option_map (fun t => MinFromTime (LocalTime h t)) d.

Fixpoint digits (fuel : nat) (n : Z) (acc : string) : string :=
  match fuel with
  | O => acc
  | S fuel' =>
      let acc' := String (ascii_of_N (48 + Z.to_N (n mod 10))) acc in
      if n <? 10 then acc' else digits fuel' (n / 10) acc'
  end.

(** Number::toString on an integer. *)
Definition showZ (n : Z) : string :=
  let a := Z.abs n in
  let ds := digits (S (Z.to_nat (Z.log2 a))) a EmptyString in
  if n <? 0 then String "-" ds else ds.

(** [String(x)] of a number that may be NaN. *)
Definition showNum (x : option Z) : string :=
  match x with
  | Some n => showZ n
  | None => "NaN"
  end.

Fixpoint zeros (n : nat) : string :=
  match n with
  | O => EmptyString
  | S n' => String "0" (zeros n')
  end.

(** [s.padStart(width, '0')] *)
Definition padStart0 (width : nat) (s : string) : string :=
  zeros (width - String.length s) ++ s.

Definition pad2 (x : option Z) : string := padStart0 2 (showNum x).

Definition isoYear (y : Z) : string :=
  if (0 <=? y) && (y <=? 9999) then padStart0 4 (showZ y)
  else (if y <? 0 then "-" else "+") ++ padStart0 6 (showZ (Z.abs y)).

(** [Date.prototype.toISOString] on a valid time value. *)
Definition toISOString (t : Z) : string :=
  let '(y, m, d) := civil t in
  isoYear y ++ "-" ++ padStart0 2 (showZ m) ++ "-" ++ padStart0 2 (showZ d)
  ++ "T" ++ padStart0 2 (showZ (HourFromTime t))
  ++ ":" ++ padStart0 2 (showZ (MinFromTime t))
  ++ ":" ++ padStart0 2 (showZ (SecFromTime t))
  ++ "." ++ padStart0 3 (showZ (msFromTime t)) ++ "Z".

Close Scope Z_scope.

(** ** The timestamp normalizer (identical in both versions of the script) *)

(** [date <= now] on the time values of two Dates; a NaN compares false. *)
Definition dateLe (d : option Z) (now : Z) : bool :=
  match d with
  | Some t => (t <=? now)%Z
  | None => false
  end.

(** [!isNaN(date)] *)
Definition notNaN (d : option Z) : bool :=
  match d with
  | Some _ => true
  | None => false
  end.

Definition isValidTimestamp (h : Host) (timestamp : jsval) : M bool :=
  let date := Date_new h timestamp in
  now <- Date_now h ;;
  ret (notNaN date && dateLe date now).

Definition getSafeTimestamp (h : Host) (timestamp : jsval) : M jsval :=
  valid <- isValidTimestamp h timestamp ;;
  if valid then ret timestamp
  else n <- Date_now h ;; ret (VNum n).

Definition nl : string := String (ascii_of_nat 10) EmptyString.

Definition formatDate (h : Host) (timestamp : jsval) : M string :=
  safe <- getSafeTimestamp h timestamp ;;
  let date := Date_new h safe in
  let year := getFullYear h date in
  let month := pad2 (getMonth1 h date) in
  let day := pad2 (getDate h date) in
  let hours := pad2 (getHours h date) in
  let minutes := pad2 (getMinutes h date) in
  ret (showNum year ++ "-" ++ month ++ "-" ++ day ++ "_" ++ hours ++ minutes).

Definition formatMessageDateTime (h : Host) (timestamp : jsval)
  : M (string * string) :=
  safe <- getSafeTimestamp h timestamp ;;
  let date := Date_new h safe in
  let year := getFullYear h date in
  let month := pad2 (getMonth1 h date) in
  let day := pad2 (getDate h date) in
  let hours := pad2 (getHours h date) in
  let minutes := pad2 (getMinutes h date) in
  ret (showNum year ++ "-" ++ month ++ "-" ++ day, hours ++ ":" ++ minutes).

(** ** Messages and sessions *)

Record link : Type := {
  l_title : option string;
  l_url : option string
}.

Record webBrowsingT : Type := {
  wb_links : option (list (option link))
}.

(** A message object of the parsed JSON.  [role] is [None] when the field
    is absent or not a string; every other optional field is [None] when
    it is absent, and holds a value of the type the script uses it at
    otherwise; [pictures] and [files] keep the length of the array. *)
Record message : Type := {
  role : option string;
  timestamp : jsval;
  content : option string;
  model : option string;
  pictures : option nat;
  files : option nat;
  links : option (list (option link));     (* [None] entries are null *)
  webBrowsing : option webBrowsingT
}.

(** A chat handed to the renderer: [messages] is [None] when it is not an
    array, and a [None] entry is a null message. *)
Record chat : Type := {
  title : string;
  messages : option (list (option message))
}.

(** ** The Markdown text, one piece per [markdown += ...] statement *)

Inductive piece : Type :=
  | DateHeading (date : string)
  | SystemBlock (content : string)
  | RoleHeading (label time : string)
  | Content (content : string)
  | PicturesMarker
  | FilesMarker
  | LinksMarker
  | LinkLine (text url : string)
  | WebLinksMarker
  | WebLinkLine (text url : string)
  | Separator.

Definition show (p : piece) : string :=
  match p with
  | DateHeading date => "## " ++ date ++ nl ++ nl
  | SystemBlock c => "```system" ++ nl ++ c ++ nl ++ "```" ++ nl ++ nl
  | RoleHeading label time => "### " ++ label ++ " | " ++ time ++ nl
  | Content c => c ++ nl
  | PicturesMarker => nl ++ "{pictures}" ++ nl
  | FilesMarker => nl ++ "{files}" ++ nl
  | LinksMarker => nl ++ "{links}" ++ nl
  | LinkLine text url => "[" ++ text ++ "](" ++ url ++ ")" ++ nl
  | WebLinksMarker => nl ++ "{web search links}" ++ nl
  | WebLinkLine text url => "- [" ++ text ++ "](" ++ url ++ ")" ++ nl
  | Separator => nl
  end%string.

Definition text (ps : list piece) : string :=
  fold_right (fun p acc => show p ++ acc) EmptyString ps.

(** [xs && xs.length > 0] on an optional array. *)
Definition nonEmpty {A} (xs : option (list A)) : bool :=
  match xs with
  | Some (_ :: _) => true
  | _ => false
  end.

(** [n && n.length > 0] on the recorded length of an optional array. *)
Definition hasItems (n : option nat) : bool :=
  match n with
  | Some (S _) => true
  | _ => false
  end.

Definition elements {A} (xs : option (list A)) : list A :=
  match xs with
  | Some l => l
  | None => []
  end.

(** [link.url] when [link && link.url] is truthy. *)
Definition linkUrl (l : option link) : option string :=
  match l with
  | Some lk => match l_url lk with
               | Some u => if Str.isEmpty u then None else Some u
               | None => None
               end
  | None => None
  end.

(** [link.title || link.url] *)
Definition linkText (lk : link) (url : string) : string :=
  match l_title lk with
  | Some t => Str.orElse t url
  | None => url
  end.

(** [xs.forEach(f)] for a body that updates a state. *)
Fixpoint forEach {A S} (f : S -> A -> M S) (xs : list A) (s : S) : M S :=
  match xs with
  | [] => ret s
  | x :: r => s' <- f s x ;; forEach f r s'
  end.

(** ** [convertChatToMarkdown] of [convert.js] *)

(** The two variables the [forEach] callback closes over. *)
Record renderState : Type := {
  markdown : list piece;
  lastDate : string
}.

Definition emit (ps : list piece) (st : renderState) : renderState :=
  {| markdown := markdown st ++ ps; lastDate := lastDate st |}.

(** The body of [links.forEach]: a line for an entry with a url, nothing
    for the others. *)
Definition linkLines (line : string -> string -> piece)
  (ls : list (option link)) : list piece :=
  flat_map (fun l => match l, linkUrl l with
                     | Some lk, Some u => [line (linkText lk u) u]
                     | _, _ => []
                     end) ls.

Definition linksSection (m : message) : list piece :=
  if nonEmpty (links m)
  then LinksMarker :: linkLines LinkLine (elements (links m))
  else [].

Definition webLinksOf (m : message) : option (list (option link)) :=
  match webBrowsing m with
  | Some wb => wb_links wb
  | None => None
  end.

Definition webSection (m : message) : list piece :=
  if nonEmpty (webLinksOf m)
  then WebLinksMarker :: linkLines WebLinkLine (elements (webLinksOf m))
  else [].

Definition optString (s : option string) (d : string) : string :=
  match s with
  | Some x => Str.orElse x d
  | None => d
  end.

(** The heading of a message that is not a SYSTEM one. *)
Definition roleHeading (ROLE : string) (m : message) (time : string) : piece :=
  if String.eqb ROLE "ASSISTANT"
  then RoleHeading (optString (model m) "ASSISTANT") time
  else RoleHeading ROLE time.

(** Everything the callback appends after the date heading. *)
Definition messageBody (ROLE : string) (m : message) (time : string)
  : list piece :=
  let content := optString (content m) EmptyString in
  (if String.eqb ROLE "SYSTEM" then [SystemBlock content]
   else roleHeading ROLE m time :: Content content
        :: (if hasItems (pictures m) then [PicturesMarker] else [])
        ++ (if hasItems (files m) then [FilesMarker] else [])
        ++ linksSection m
        ++ webSection m)
  ++ [Separator].

(** [msg.timestamp ? getSafeTimestamp(msg.timestamp) : Date.now()] and
    [formatMessageDateTime] of it. *)
Definition messageDateTime (h : Host) (m : message) : M (string * string) :=
  ts <- (if truthy (timestamp m) then getSafeTimestamp h (timestamp m)
         else n <- Date_now h ;; ret (VNum n)) ;;
  formatMessageDateTime h ts.

Definition skipWarning : string := "Skipping invalid message object:".

(** The role of a message the callback does not skip. *)
Definition validRole (msg : option message) : option (message * string) :=
  match msg with
  | Some m => match role m with
              | Some r => Some (m, r)
              | None => None
              end
  | None => None
  end.

(** The callback of [chat.messages.forEach]. *)
Definition renderMessage (h : Host) (st : renderState) (msg : option message)
  : M renderState :=
  match validRole msg with
  | None => say Warn skipWarning ;;; ret st
  | Some (m, r) =>
      let ROLE := Str.toUpperCase r in
      '(date, time) <- messageDateTime h m ;;
      let st :=
        if String.eqb date (lastDate st) then st
        else {| markdown := markdown st ++ [DateHeading date];
                lastDate := date |} in
      ret (emit (messageBody ROLE m time) st)
  end.

Definition noMessagesWarning : string :=
  "Warning: Chat data is missing or messages are not in expected array format. Skipping message conversion.".

Definition noMessagesDocument : string :=
  "<!-- Warning: No messages found or invalid format -->" ++ nl.

Definition renderState0 : renderState :=
  {| markdown := []; lastDate := EmptyString |}.

(** The pieces appended by the loop of [convertChatToMarkdown]. *)
Definition renderMessages (h : Host) (msgs : list (option message))
  : M (list piece) :=
  st <- forEach (renderMessage h) msgs renderState0 ;;
  ret (markdown st).

Definition convertChatToMarkdown (h : Host) (c : option chat) : M string :=
  match c with
  | Some {| messages := Some msgs |} =>
      ps <- renderMessages h msgs ;; ret (text ps)
  | _ => say Warn noMessagesWarning ;;; ret noMessagesDocument
  end.

(** ** [parseCherryStudio] of [convert.js] *)

(** The outcome of code inside the [try] block. *)
Inductive result (A : Type) : Type :=
  | Ok (a : A)
  | Throw.
Arguments Ok {A} a.
Arguments Throw {A}.

Fixpoint endsWith (s suffix : string) : bool :=
  String.eqb s suffix
  || match s with
     | EmptyString => false
     | String _ r => endsWith r suffix
     end.

(** [(entry.role || 'unknown').toLowerCase() === 'you' ? 'user' : ...] *)
Definition cherryRole (e : logItem) : string :=
  let r := Str.toLowerCase (optString (e_role e) "unknown") in
  if String.eqb r "you" then "user" else r.

Definition cherryMessage (r c ts : string) : message :=
  {| role := Some r; timestamp := VStr ts; content := Some c;
     model := None; pictures := None; files := None; links := None;
     webBrowsing := None |}.

(** The callback of [jsonData.log.map] on an entry it can read;
    [toISOString] throws a RangeError on an Invalid Date. *)
Definition convertLogItem (h : Host) (e : logItem) : M (result message) :=
  let r := cherryRole e in
  let c := optString (e_content e) EmptyString in
  if truthy (e_timestamp e) then
    match Date_new h (e_timestamp e) with
    | Some t => ret (Ok (cherryMessage r c (toISOString t)))
    | None => ret Throw
    end
  else now <- Date_now h ;; ret (Ok (cherryMessage r c (toISOString now))).

(** The callback on any entry of the array: reading [role] of [null], and
    calling [toLowerCase] on a role that is not a string, throws a
    TypeError before anything else is read. *)
Definition convertLogEntry (h : Host) (entry : logEntry) : M (result message) :=
  match entry with
  | Entry e => convertLogItem h e
  | NullEntry | RoleNotAString => ret Throw
  end.

(** [log.map(f)] for a callback that may throw. *)
Fixpoint mapLog (h : Host) (log : list logEntry) : M (result (list message)) :=
  match log with
  | [] => ret (Ok [])
  | e :: rest =>
      r <- convertLogEntry h e ;;
      match r with
      | Throw => ret Throw
      | Ok m =>
          rs <- mapLog h rest ;;
          match rs with
          | Throw => ret Throw
          | Ok ms => ret (Ok (m :: ms))
          end
      end
  end.

Definition noJsonWarning (filePath : string) : string :=
  "   Warning: No JSON file found in ZIP: " ++ filePath.

Definition unsupportedWarning (filePath : string) : string :=
  "   Unsupported file type for Cherry Studio: " ++ filePath.

Definition noLogWarning : string :=
  "   Warning: Could not find 'log' array in the parsed Cherry Studio JSON data.".

Definition parseError (filePath : string) : string :=
  "   Error parsing Cherry Studio file " ++ filePath ++ ":".

(** From [let chats = []] to [return chats]. *)
Definition chatsOfPayload (h : Host) (p : payload) (potentialTitle : string)
  : M (result (list chat)) :=
  match p_log p with
  | Some log =>
      r <- mapLog h log ;;
      match r with
      | Throw => ret Throw
      | Ok ms =>
          say Log "[Stub] Parsed 1 chat session from Cherry Studio data." ;;;
          ret (Ok [ {| title := potentialTitle;
                       messages := Some (List.map Some ms) |} ])
      end
  | None => say Warn noLogWarning ;;; ret (Ok [])
  end.

(** [jsonData = JSON.parse(jsonContent); potentialTitle = jsonData.title ||
    potentialTitle] and the rest of the block; reading [title] of [null]
    throws a TypeError. *)
Definition chatsOfJson (h : Host) (jsonContent potentialTitle : string)
  : M (result (list chat)) :=
  match JSON_parse h jsonContent with
  | Some (Some p) =>
      chatsOfPayload h p (optString (p_title p) potentialTitle)
  | _ => ret Throw
  end.

Definition isJsonEntry (e : zipEntry) : bool :=
  endsWith (entryName e) ".json" && negb (isDirectory e).

(** The [try] block. *)
Definition parseCherryStudioBody (h : Host) (filePath potentialTitle : string)
  : M (result (list chat)) :=
  if endsWith filePath ".zip" then
    match openZip h filePath with
    | None => ret Throw
    | Some zipEntries =>
        match find isJsonEntry zipEntries with
        | Some jsonEntry =>
            say Log ("   Extracting " ++ entryName jsonEntry ++ " from ZIP...") ;;;
            chatsOfJson h (entryText jsonEntry) potentialTitle
        | None => say Warn (noJsonWarning filePath) ;;; ret (Ok [])
        end
    end
  else if endsWith filePath ".json" then
    say Log ("   Reading direct JSON: " ++ filePath) ;;;
    match readFileSync h filePath with
    | Some jsonContent => chatsOfJson h jsonContent potentialTitle
    | None => ret Throw
    end
  else say Warn (unsupportedWarning filePath) ;;; ret (Ok []).

(** The value the promise returned by [parseCherryStudio] resolves to. *)
Definition parseCherryStudio (h : Host) (filePath : string) : M (list chat) :=
  say Log ("[Stub] Parsing Cherry Studio file: " ++ filePath) ;;;
  let potentialTitle := path_basename h filePath (path_extname h filePath) in
  r <- parseCherryStudioBody h filePath potentialTitle ;;
  match r with
  | Ok chats => ret chats
  | Throw => say Error (parseError filePath) ;;; ret []
  end.

(** ** The file name built by [saveChatsToMarkdown] of [convert.js] *)

Definition isSpace (c : ascii) : bool :=
  let n := Str.code c in
  ((9 <=? n) && (n <=? 13) || (n =? 32) || (n =? 160))%N.

(** The character class of the title sanitizer: the characters
    < > : / \ | ? * . and the double quote, and white space. *)
Definition isUnsafeChar (c : ascii) : bool :=
  existsb (N.eqb (Str.code c)) [60; 62; 58; 34; 47; 92; 124; 63; 42; 46]%N
  || isSpace c.

(** [title.replace(/[...]+/g, '_')] over that class; [inRun] tells that the
    previous character belonged to the run being replaced. *)
Fixpoint replaceUnsafeRuns (inRun : bool) (s : string) : string :=
  match s with
  | EmptyString => EmptyString
  | String c r =>
      if isUnsafeChar c
      then (if inRun then replaceUnsafeRuns true r
            else String "_" (replaceUnsafeRuns true r))
      else String c (replaceUnsafeRuns false r)
  end.

Definition safeTitle (title : string) : string :=
  Str.orElse (substring 0 50 (replaceUnsafeRuns false title)) "unnamed_chat".

(** The callback of [chats.forEach] up to [const filename]; reading
    [messages[0].content.substring] throws when the first message is null or
    has no content. *)
Definition saveFileName (h : Host) (c : chat) : M (result string) :=
  let name (ts : jsval) : string :=
    let date := Date_new h ts in
    let dateString := showNum (getFullYear h date) ++ "-"
                      ++ pad2 (getMonth1 h date) ++ "-" ++ pad2 (getDate h date) in
    let timeString := pad2 (getHours h date) ++ pad2 (getMinutes h date) in
    dateString ++ "_" ++ timeString ++ "_" ++ safeTitle (title c) ++ ".md" in
  match messages c with
  | Some (first :: _) =>
      match first with
      | Some m =>
          match content m with
          | Some _ =>
              if truthy (timestamp m) then ret (Ok (name (timestamp m)))
              else n <- Date_now h ;; ret (Ok (name (VNum n)))
          | None => ret Throw
          end
      | None => ret Throw
      end
  | _ => n <- Date_now h ;; ret (Ok (name (VNum n)))
  end.

(** ** The earlier version of the script *)

Module Part000.

(** An element of [jsonData['chat-sessions']]. *)
Record session : Type := {
  name : option string;
  threadName : option string;
  s_messages : list (option message)
}.

(** [chat.messages[0]?.timestamp] *)
Definition firstTimestamp (s : session) : jsval :=
  match s_messages s with
  | Some m :: _ => timestamp m
  | _ => VUndefined
  end.

(** [chat.name || chat.threadName || 'unnamed_chat'] *)
Definition chatName (s : session) : string :=
  optString (name s) (optString (threadName s) "unnamed_chat").

(** The callback of [jsonData['chat-sessions'].forEach] in [main], up to
    [const fileName]. *)
Definition fileName (h : Host) (s : session) : M string :=
  safe <- getSafeTimestamp h (firstTimestamp s) ;;
  timestamp <- (if truthy safe then ret safe
                else n <- Date_now h ;; ret (VNum n)) ;;
  datePrefix <- formatDate h timestamp ;;
  let sanitizedChatName := sanitizeFileName50 (chatName s) in
  ret (datePrefix ++ "_" ++ sanitizedChatName ++ ".md").

(** [convertChatToMarkdown] of the earlier version: no guards, so a null
    message, a message without a role and a null link throw a TypeError,
    and an absent [content], [title] or [url] prints as [undefined]. *)

(** [String(x)] of an optional string. *)
Definition showOpt (s : option string) : string :=
  match s with
  | Some x => x
  | None => "undefined"
  end.

(** The body of [links.forEach]. *)
Fixpoint linkLines (line : link -> piece) (ls : list (option link))
  : result (list piece) :=
  match ls with
  | [] => Ok []
  | None :: _ => Throw
  | Some lk :: rest =>
      match linkLines line rest with
      | Ok ps => Ok (line lk :: ps)
      | Throw => Throw
      end
  end.

Definition linkLine (lk : link) : piece :=
  LinkLine (showOpt (l_title lk)) (showOpt (l_url lk)).

Definition webLinkLine (lk : link) : piece :=
  WebLinkLine (optString (l_title lk) (showOpt (l_url lk))) (showOpt (l_url lk)).

Definition section (marker : piece) (line : link -> piece)
  (ls : option (list (option link))) : result (list piece) :=
  if nonEmpty ls then
    match linkLines line (elements ls) with
    | Ok ps => Ok (marker :: ps)
    | Throw => Throw
    end
  else Ok [].

Definition messageBody (ROLE : string) (m : message) (time : string)
  : result (list piece) :=
  if String.eqb ROLE "SYSTEM"
  then Ok [SystemBlock (showOpt (content m)); Separator]
  else
    match section LinksMarker linkLine (links m),
          section WebLinksMarker webLinkLine (webLinksOf m) with
    | Ok ls, Ok ws =>
        Ok (roleHeading ROLE m time :: Content (showOpt (content m))
            :: (if hasItems (pictures m) then [PicturesMarker] else [])
            ++ (if hasItems (files m) then [FilesMarker] else [])
            ++ ls ++ ws ++ [Separator])
    | _, _ => Throw
    end.

(** The callback of [chat.messages.forEach]. *)
Definition renderMessage (h : Host) (st : renderState) (msg : option message)
  : M (result renderState) :=
  match validRole msg with
  | None => ret Throw
  | Some (m, r) =>
      let ROLE := Str.toUpperCase r in
      '(date, time) <- formatMessageDateTime h (timestamp m) ;;
      let st :=
        if String.eqb date (lastDate st) then st
        else {| markdown := markdown st ++ [DateHeading date];
                lastDate := date |} in
      match messageBody ROLE m time with
      | Ok ps => ret (Ok (emit ps st))
      | Throw => ret Throw
      end
  end.

Fixpoint renderMessages (h : Host) (msgs : list (option message))
  (st : renderState) : M (result renderState) :=
  match msgs with
  | [] => ret (Ok st)
  | msg :: rest =>
      r <- renderMessage h st msg ;;
      match r with
      | Ok st' => renderMessages h rest st'
      | Throw => ret Throw
      end
  end.

Definition convertChatToMarkdown (h : Host) (s : session) : M (result string) :=
  r <- renderMessages h (s_messages s) renderState0 ;;
  match r with
  | Ok st => ret (Ok (text (markdown st)))
  | Throw => ret Throw
  end.

End Part000.

(** ** Notions the properties are stated with *)

(** No two adjacent underscores. *)
Fixpoint noDouble (s : string) : bool :=
  match s with
  | EmptyString => true
  | String c r =>
      negb (Str.isUnderscore c && Str.startsWithUnderscore r) && noDouble r
  end.

(** The dates of the date headings among the pieces, in order. *)
Definition dateHeadings (ps : list piece) : list string :=
  flat_map (fun p => match p with
                     | DateHeading d => [d]
                     | _ => []
                     end) ps.

Definition isRoleHeading (p : piece) : bool :=
  match p with
  | RoleHeading _ _ => true
  | _ => false
  end.

Definition isLinkLine (p : piece) : bool :=
  match p with
  | LinkLine _ _ => true
  | _ => false
  end.

(** The headings a cursor that starts at [cursor] lets through: a date is
    kept exactly when it differs from the date before it. *)
Fixpoint headingsFrom (cursor : string) (dates : list string) : list string :=
  match dates with
  | [] => []
  | d :: rest =>
      if String.eqb d cursor then headingsFrom cursor rest
      else d :: headingsFrom d rest
  end.

Definition isSkipped (msg : option message) : bool :=
  match validRole msg with
  | Some _ => false
  | None => true
  end.

(** The date the renderer computes for each message it does not skip. *)
Fixpoint messageDates (h : Host) (msgs : list (option message))
  : M (list string) :=
  match msgs with
  | [] => ret []
  | msg :: rest =>
      match validRole msg with
      | None => messageDates h rest
      | Some (m, _) =>
          dt <- messageDateTime h m ;;
          ds <- messageDates h rest ;;
          ret (fst dt :: ds)
      end
  end.

(** A role that is [system] up to the case of its letters. *)
Definition isSystemRole (r : string) : Prop :=
  Str.toLowerCase r = "system".

(** *** A host for the examples *)

Fixpoint contains (c : ascii) (s : string) : bool :=
  match s with
  | EmptyString => false
  | String a r => Ascii.eqb a c || contains c r
  end.

(** The part of [s] after the last [c]; all of [s] when it has none. *)
Fixpoint afterLast (c : ascii) (s : string) : string :=
  match s with
  | EmptyString => EmptyString
  | String a r =>
      if contains c r then afterLast c r
      else if Ascii.eqb a c then r else s
  end.

(** [s] without the slashes it ends with. *)
Fixpoint stripSlashes (s : string) : string :=
  match s with
  | EmptyString => EmptyString
  | String a r =>
      let r' := stripSlashes r in
      if Ascii.eqb a "/" && Str.isEmpty r' then EmptyString else String a r'
  end.

Definition lastComponent (p : string) : string :=
  afterLast "/" (stripSlashes p).

(** [path.extname] of Node on a POSIX system: from the last dot of the
    last component, unless that dot is its first character or the
    component is [..]. *)
Definition posixExtname (p : string) : string :=
  let base := lastComponent p in
  match base with
  | EmptyString => EmptyString
  | String _ r =>
      if String.eqb base ".." || negb (contains "." r) then EmptyString
      else String "." (afterLast "." r)
  end.

(** [path.basename] of Node on a POSIX system: the last component, without
    the suffix when it ends with it and is more than it. *)
Definition posixBasename (p suffix : string) : string :=
  let base := lastComponent p in
  if Str.isEmpty suffix || (String.length p <? String.length suffix)%nat
  then base
  else if String.eqb suffix p then EmptyString
  else if Str.isEmpty (stripSlashes p) then p
  else if endsWith base suffix && negb (String.eqb base suffix)
  then substring 0 (String.length base - String.length suffix) base
  else base.

(** The clock starts in 2033 and advances by a millisecond per reading,
    local time is UTC, [Date.parse] knows two strings, the directory holds
    an archive and four JSON files. *)
Definition exampleHost : Host := {|
  clock := fun n => (2000000000000 + Z.of_nat n)%Z;
  Date_parse := fun s =>
    if String.eqb s "2024-03-01T10:15:00Z" then Some 1709288100000%Z
    else if String.eqb s "2024-03-02T09:00:00Z" then Some 1709370000000%Z
    else None;
  LocalTZA := fun _ => 0%Z;
  path_basename := posixBasename;
  path_extname := posixExtname;
  openZip := fun p =>
    if String.eqb p "empty.zip"
    then Some [ {| entryName := "notes/"; isDirectory := true;
                   entryText := EmptyString |};
                {| entryName := "readme.txt"; isDirectory := false;
                   entryText := "hello" |} ]
    else None;
  readFileSync := fun p =>
    if String.eqb p "nolog.json" then Some "{title}"
    else if String.eqb p "chat.json" then Some "{log}"
    else if String.eqb p "bad.json" then Some "{badlog}"
    else if String.eqb p "holes.json" then Some "{holes}"
    else None;
  JSON_parse := fun s =>
    if String.eqb s "{title}"
    then Some (Some {| p_title := Some "Notes"; p_log := None |})
    else if String.eqb s "{log}"
    then Some (Some {| p_title := None;
                       p_log := Some [ Entry {| e_role := Some "You";
                                                e_content := Some "hi";
                                                e_timestamp := VStr "2024-03-01T10:15:00Z" |};
                                       Entry {| e_role := Some "Assistant";
                                                e_content := None;
                                                e_timestamp := VUndefined |} ] |})
    else if String.eqb s "{badlog}"
    then Some (Some {| p_title := None;
                       p_log := Some [ Entry {| e_role := Some "You";
                                                e_content := Some "hi";
                                                e_timestamp := VStr "yesterday" |} ] |})
    else if String.eqb s "{holes}"
    then Some (Some {| p_title := Some "Trip";
                       p_log := Some [ Entry {| e_role := Some "You";
                                                e_content := Some "hi";
                                                e_timestamp := VUndefined |};
                                       NullEntry ] |})
    else None
|}.

Definition plainMessage (r c : string) (ts : jsval) : message :=
  {| role := Some r; timestamp := ts; content := Some c; model := None;
     pictures := None; files := None; links := None; webBrowsing := None |}.

Definition withConsole (c : list (level * string)) (w : World) : World :=
  {| ticks := ticks w; console := c |}.

(** The date heading the callback emits for a message dated [date], and
    the cursor it leaves. *)
Definition dateHeadingFor (st : renderState) (date : string) : list piece :=
  if String.eqb date (lastDate st) then [] else [DateHeading date].

Definition cursorAfter (st : renderState) (date : string) : string :=
  if String.eqb date (lastDate st) then lastDate st else date.

Definition skippedCount (msgs : list (option message)) : nat :=
  List.length (filter isSkipped msgs).

(** The messages the renderer does not skip. *)
Definition rendered (msgs : list (option message)) : list (option message) :=
  filter (fun msg => negb (isSkipped msg)) msgs.

(** The world once [parseCherryStudio] has printed its first line. *)
Definition started (filePath : string) (w : World) : World :=
  withConsole
    (console w ++ [(Log, "[Stub] Parsing Cherry Studio file: " ++ filePath)]) w.

(** The JSON text [parseCherryStudio] reads for a path, when there is one. *)
Definition jsonText (h : Host) (filePath : string) : option string :=
  if endsWith filePath ".zip" then
    match openZip h filePath with
    | Some zipEntries => option_map entryText (find isJsonEntry zipEntries)
    | None => None
    end
  else if endsWith filePath ".json" then readFileSync h filePath
  else None.

(** The Format-B inputs without sessions, each with the diagnostic the
    adapter prints for it: an archive without a JSON entry, a payload
    without a [log] array, and the payload [null]. *)
Inductive withoutSessions (h : Host) (filePath : string)
  : level * string -> Prop :=
  | ArchiveWithoutJson (zipEntries : list zipEntry) :
      endsWith filePath ".zip" = true ->
      openZip h filePath = Some zipEntries ->
      find isJsonEntry zipEntries = None ->
      withoutSessions h filePath (Warn, noJsonWarning filePath)
  | PayloadWithoutLog (jsonContent : string) (p : payload) :
      jsonText h filePath = Some jsonContent ->
      JSON_parse h jsonContent = Some (Some p) ->
      p_log p = None ->
      withoutSessions h filePath (Warn, noLogWarning)
  | NullPayload (jsonContent : string) :
      jsonText h filePath = Some jsonContent ->
      JSON_parse h jsonContent = Some None ->
      withoutSessions h filePath (Error, parseError filePath).

(** A line of [console.log], as opposed to a warning or an error. *)
Definition isLog (e : level * string) : bool :=
  match fst e with
  | Log => true
  | _ => false
  end.

(** An entry whose timestamp is truthy and does not parse. *)
Definition badTimestamp (h : Host) (e : logItem) : bool :=
  truthy (e_timestamp e)
  && match Date_new h (e_timestamp e) with
     | Some _ => false
     | None => true
     end.

(** An entry on which the callback of [jsonData.log.map] throws. *)
Definition throwsOn (h : Host) (entry : logEntry) : bool :=
  match entry with
  | Entry e => badTimestamp h e
  | NullEntry | RoleNotAString => true
  end.

(** [YYYY-MM-DD_HHMM] of a Date. *)
Definition datePrefixOf (h : Host) (date : option Z) : string :=
  showNum (getFullYear h date) ++ "-" ++ pad2 (getMonth1 h date) ++ "-"
  ++ pad2 (getDate h date) ++ "_" ++ pad2 (getHours h date)
  ++ pad2 (getMinutes h date).

(** *** Sample data *)

(** 2024-03-01T10:15:00Z and 2024-03-02T09:00:00Z. *)
Definition sampleDay1 : jsval := VNum 1709288100000.
Definition sampleDay2 : jsval := VNum 1709370000000.

Definition linklessMessage : message :=
  {| role := Some "user"; timestamp := sampleDay1; content := Some "see";
     model := None; pictures := None; files := None;
     links := Some [None; Some {| l_title := Some "Docs"; l_url := None |}];
     webBrowsing := None |}.

Definition roleless : message :=
  {| role := None; timestamp := sampleDay2; content := Some "lost";
     model := None; pictures := None; files := None; links := None;
     webBrowsing := None |}.

Definition twoDays : list (option message) :=
  [ Some (plainMessage "user" "a" sampleDay1);
    Some (plainMessage "user" "b" sampleDay1);
    Some (plainMessage "assistant" "c" sampleDay2) ].

Definition backAndForth : list (option message) :=
  [ Some (plainMessage "user" "a" sampleDay1);
    Some (plainMessage "assistant" "b" sampleDay2);
    Some (plainMessage "user" "c" sampleDay1) ].

Definition tipsChat : chat :=
  {| title := "Q&A: tips";
     messages := Some [Some (plainMessage "user" "hi" sampleDay1)] |}.

Definition tipsSession : Part000.session :=
  {| Part000.name := Some "Q&A: tips"; Part000.threadName := None;
     Part000.s_messages := [Some (plainMessage "user" "hi" sampleDay1)] |}.

Definition tripPlanning : list (option message) :=
  [ Some (plainMessage "user" "Where to go?" (VStr "2024-03-01T10:15:00Z"));
    Some {| role := Some "assistant"; timestamp := VNum 1709288160000;
            content := Some "Try Kyoto."; model := Some "gpt-4";
            pictures := None; files := None; links := None;
            webBrowsing := None |} ].

(** ** More of the script *)

(** [YYYY-MM-DD] and [HH:MM] of a Date, as [formatMessageDateTime] prints
    them. *)
Definition dateText (h : Host) (date : option Z) : string :=
  showNum (getFullYear h date) ++ "-" ++ pad2 (getMonth1 h date) ++ "-"
  ++ pad2 (getDate h date).

Definition timeText (h : Host) (date : option Z) : string :=
  pad2 (getHours h date) ++ ":" ++ pad2 (getMinutes h date).

(** The decimal digit [n]. *)
Definition digitChar (n : Z) : ascii := ascii_of_N (48 + Z.to_N n).

(** The clock reading [n] is a time value a Date can hold. *)
Definition readingInRange (h : Host) (n : nat) : Prop :=
  TimeClip (clock h n) = Some (clock h n).

Definition isSeparator (p : piece) : bool :=
  match p with
  | Separator => true
  | _ => false
  end.

(** A role that is [assistant] up to the case of its letters. *)
Definition isAssistantRole (r : string) : Prop :=
  Str.toLowerCase r = "assistant".


(** No two neighbours are equal. *)
Fixpoint noRepeat (l : list string) : Prop :=
  match l with
  | [] => True
  | x :: rest =>
      match rest with
      | [] => True
      | y :: _ => x <> y
      end /\ noRepeat rest
  end.

(** The occurrences of every element are next to each other. *)
Definition contiguous (l : list string) : Prop :=
  forall a b c d, l = (a ++ d :: b ++ d :: c)%list -> forall x, In x b -> x = d.

(** The message [parseCherryStudio] makes from a log entry: the role with
    the alias folded, the content, and as timestamp the ISO string of the
    parsed time or, without a timestamp, of a clock reading. *)
Definition logMessage (h : Host) (e : logItem) (m : message) : Prop :=
  exists iso,
    m = cherryMessage (cherryRole e) (optString (e_content e) EmptyString) iso
    /\ if truthy (e_timestamp e)
       then exists t, Date_new h (e_timestamp e) = Some t /\ iso = toISOString t
       else exists n, iso = toISOString (clock h n).

Definition entryMessage (h : Host) (entry : logEntry) (m : message) : Prop :=
  match entry with
  | Entry e => logMessage h e m
  | NullEntry | RoleNotAString => False
  end.

(** The last line printed on the console. *)
Definition lastLine (w : World) : option (level * string) :=
  List.last (List.map Some (console w)) None.

(** ** [parseChatbox] of [convert.js] *)

(** The [messages] field of a session of a Chatbox file. *)
Inductive messagesField : Type :=
  | NoMessages                                     (* absent or falsy *)
  | MessagesArray (msgs : list (option message))
  | NotAnArray.                                    (* truthy and not an array *)

Record chatboxSession : Type := {
  cs_name : option string;
  cs_threadName : option string;
  cs_messages : messagesField
}.

(** What [JSON.parse] returns for a Chatbox file, as far as [parseChatbox]
    reads it: [data['chat-sessions']] and [data.messages] when they are
    arrays (a [None] entry is null), [data.title] and [data.name] when they
    are strings. *)
Record chatboxData : Type := {
  d_sessions : option (list (option chatboxSession));
  d_messages : option (list (option message));
  d_title : option string;
  d_name : option string
}.

(** [session.messages || []] *)
Definition sessionMessages (f : messagesField) : option (list (option message)) :=
  match f with
  | NoMessages => Some []
  | MessagesArray msgs => Some msgs
  | NotAnArray => None
  end.

(** The callback of [data['chat-sessions'].map]. *)
Definition chatOfSession (index : nat) (s : chatboxSession) : chat :=
  {| title := optString (cs_name s)
                (optString (cs_threadName s)
                   ("Chatbox Session " ++ showZ (Z.of_nat index + 1)));
     messages := sessionMessages (cs_messages s) |}.

(** [sessions.map(callback)] from [index] on; reading [name] of a null
    session throws a TypeError. *)
Fixpoint chatsOfSessions (index : nat) (sessions : list (option chatboxSession))
  : result (list chat) :=
  match sessions with
  | [] => Ok []
  | None :: _ => Throw
  | Some s :: rest =>
      match chatsOfSessions (S index) rest with
      | Ok chats => Ok (chatOfSession index s :: chats)
      | Throw => Throw
      end
  end.

Definition noSessionsWarning (base : string) : string :=
  "Warning: Could not find expected 'chat-sessions' array or 'messages' array in "
  ++ base ++ ".".

Definition foundLine (chats : list chat) : string :=
  "[Stub] Found " ++ showZ (Z.of_nat (List.length chats))
  ++ " chat sessions in Chatbox file.".

(** The value the promise returned by [parseChatbox] resolves to, or
    [Throw] when it rejects: the function has no [try].  [parseJson] is
    [JSON.parse] at the type above ([None]: SyntaxError; [Some None]: null,
    on which reading a property throws); [path.basename] of one argument
    is [path_basename] with the empty suffix. *)
Definition parseChatbox (h : Host)
  (parseJson : string -> option (option chatboxData)) (filePath : string)
  : M (result (list chat)) :=
  say Log ("[Stub] Parsing Chatbox file: " ++ filePath) ;;;
  match readFileSync h filePath with
  | None => ret Throw
  | Some fileContent =>
      match parseJson fileContent with
      | Some (Some data) =>
          r <- match d_sessions data with
               | Some sessions => ret (chatsOfSessions 0 sessions)
               | None =>
                   match d_messages data with
                   | Some msgs =>
                       ret (Ok [ {| title :=
                                      optString (d_title data)
                                        (optString (d_name data)
                                           (path_basename h filePath ".json"));
                                    messages := Some msgs |} ])
                   | None =>
                       say Warn (noSessionsWarning
                                   (path_basename h filePath EmptyString)) ;;;
                       ret (Ok [])
                   end
               end ;;
          match r with
          | Ok chats => say Log (foundLine chats) ;;; ret (Ok chats)
          | Throw => ret Throw
          end
      | _ => ret Throw
      end
  end.

(** ** The file selection menu of [convert.js] *)

Record keypress : Type := {
  ctrl : bool;
  keyName : string
}.

(** [list.forEach((file, index) => ...)] for a callback that prints a line. *)
Fixpoint linesFrom (index : nat) (line : nat -> string -> string)
  (fileList : list string) : list string :=
  match fileList with
  | [] => []
  | file :: rest => line index file :: linesFrom (S index) line rest
  end.

Definition cursorMark (selected : bool) : string :=
  if selected then ">" else " ".

(** The lines [displayMenu] prints after [console.clear()]. *)
Definition displayMenu (h : Host)
  (cherryFiles chatboxFiles : list string) (selectedIndex : nat) : list string :=
  let base file := path_basename h file EmptyString in
  let cherryCount := List.length cherryFiles in
  ["=== Cherry Studio files (.zip, .json) ==="]
  ++ (if Nat.eqb cherryCount 0 then ["(No files found in input_cherry)"] else [])
  ++ linesFrom 0 (fun index file =>
                    cursorMark (Nat.eqb index selectedIndex) ++ " " ++ base file)
       cherryFiles
  ++ [nl ++ "=== Chatbox files (.json) ==="]
  ++ (if Nat.eqb (List.length chatboxFiles) 0
      then ["(No files found in input_chatbox)"] else [])
  ++ linesFrom 0 (fun index file =>
                    let absoluteIndex := cherryCount + index in
                    cursorMark (Nat.eqb absoluteIndex selectedIndex) ++ " "
                    ++ base file)
       chatboxFiles
  ++ [nl ++ "Use UP/DOWN arrows to select, ENTER to process, CTRL+C to exit."].

(** A JavaScript object as the list of its properties. *)
Definition object : Type := list (string * jsval).

(** [o.k], [undefined] for a property the object does not have. *)
Fixpoint getProp (o : object) (k : string) : jsval :=
  match o with
  | [] => VUndefined
  | (k', v) :: rest => if String.eqb k' k then v else getProp rest k
  end.

(** [a[i]] as a value. *)
Definition itemAt (a : list string) (i : nat) : jsval :=
  match nth_error a i with
  | Some x => VStr x
  | None => VUndefined
  end.

(** The menu: still choosing, with the index and the screen last drawn;
    resolved with the selection object; or the process has exited. *)
Inductive menu : Type :=
  | Choosing (selectedIndex : nat) (screen : list string)
  | Resolved (selection : object)
  | Exited.

(** [keypressHandler]; after [return] the listener is removed. *)
Definition keypressHandler (h : Host)
  (cherryFiles chatboxFiles : list string) (st : menu) (key : keypress) : menu :=
  match st with
  | Choosing selectedIndex screen =>
      let allFiles := (cherryFiles ++ chatboxFiles)%list in
      let cherryCount := List.length cherryFiles in
      if ctrl key && String.eqb (keyName key) "c" then Exited
      else if String.eqb (keyName key) "up" then
        if Nat.ltb 0 selectedIndex
        then Choosing (selectedIndex - 1)
               (displayMenu h cherryFiles chatboxFiles (selectedIndex - 1))
        else st
      else if String.eqb (keyName key) "down" then
        if Nat.ltb selectedIndex (List.length allFiles - 1)
        then Choosing (S selectedIndex)
               (displayMenu h cherryFiles chatboxFiles (S selectedIndex))
        else st
      else if String.eqb (keyName key) "return" then
        let selectedFilePath := itemAt allFiles selectedIndex in
        let type := if Nat.ltb selectedIndex cherryCount then "cherry" else "chatbox" in
        Resolved [("filePath", selectedFilePath); ("type", VStr type)]
      else st
  | _ => st
  end.

(** [showFileSelectionMenu] on the keys pressed: it exits at once when
    there is no file. *)
Definition showFileSelectionMenu (h : Host)
  (cherryFiles chatboxFiles : list string) (keys : list keypress) : menu :=
  match (cherryFiles ++ chatboxFiles)%list with
  | [] => Exited
  | _ :: _ =>
      fold_left (keypressHandler h cherryFiles chatboxFiles) keys
        (Choosing 0 (displayMenu h cherryFiles chatboxFiles 0))
  end.

(** [x === s] for a string [s]. *)
Definition strictEqString (x : jsval) (s : string) : bool :=
  match x with
  | VStr y => String.eqb y s
  | _ => false
  end.

(** The two branches of [main] of [convert.js]. *)
Inductive parserChoice : Type := UseCherryStudio | UseChatbox.

(** [const { filePath, fileType } = selection] and the test
    [fileType === 'cherry'] of [main]. *)
Definition mainParser (selection : object) : parserChoice :=
  let fileType := getProp selection "fileType" in
  if strictEqString fileType "cherry" then UseCherryStudio else UseChatbox.

(** A line of the menu that carries the cursor. *)
Definition isMarked (line : string) : bool :=
  match line with
  | String c _ => Ascii.eqb c ">"
  | EmptyString => false
  end.

Definition keyOf (name : string) : keypress := {| ctrl := false; keyName := name |}.

(** A link both renderers print the same way: not null, with a title and
    a url that are not empty. *)
Definition fullLink (l : option link) : Prop :=
  exists lk t u,
    l = Some lk /\ l_title lk = Some t /\ t <> EmptyString
    /\ l_url lk = Some u /\ u <> EmptyString.

(** A web-search link with a url that is not empty. *)
Definition linkWithUrl (l : option link) : Prop :=
  exists lk u, l = Some lk /\ l_url lk = Some u /\ u <> EmptyString.

(** A timestamp that is present, parses, and is not later than any
    reading of the clock. *)
Definition alwaysPast (h : Host) (ts : jsval) : Prop :=
  truthy ts = true
  /\ exists d, Date_new h ts = Some d /\ forall n, (d <= clock h n)%Z.

(** A message with all the fields the earlier renderer relies on. *)
Definition complete (h : Host) (m : message) : Prop :=
  role m <> None /\ content m <> None /\ alwaysPast h (timestamp m)
  /\ Forall fullLink (elements (links m))
  /\ Forall linkWithUrl (elements (webLinksOf m)).

(** What holds of the menu whatever keys were pressed. *)
Definition menuInvariant (h : Host) (cherryFiles chatboxFiles : list string)
  (st : menu) : Prop :=
  match st with
  | Choosing selectedIndex screen =>
      (selectedIndex < List.length (cherryFiles ++ chatboxFiles))%nat
      /\ screen = displayMenu h cherryFiles chatboxFiles selectedIndex
  | Resolved selection =>
      exists selectedIndex file,
        nth_error (cherryFiles ++ chatboxFiles) selectedIndex = Some file
        /\ selection
           = [ ("filePath", VStr file);
               ("type", VStr (if Nat.ltb selectedIndex (List.length cherryFiles)
                              then "cherry" else "chatbox")) ]
  | Exited => True
  end.

Definition sampleChatboxData : chatboxData :=
  {| d_sessions :=
       Some [ Some {| cs_name := Some "Trip"; cs_threadName := None;
                      cs_messages := MessagesArray twoDays |};
              Some {| cs_name := None; cs_threadName := None;
                      cs_messages := NoMessages |} ];
     d_messages := Some twoDays; d_title := None; d_name := None |}.

Definition docsLink : link :=
  {| l_title := Some "Docs"; l_url := Some "https://x" |}.

Definition linkedMessage : message :=
  {| role := Some "user"; timestamp := sampleDay1; content := Some "see";
     model := None; pictures := None; files := Some 2;
     links := Some [Some docsLink];
     webBrowsing :=
       Some {| wb_links :=
                 Some [Some {| l_title := None; l_url := Some "https://y" |}] |} |}.

Definition urllessMessage : message :=
  {| role := Some "user"; timestamp := sampleDay1; content := Some "see";
     model := None; pictures := None; files := None;
     links := Some [Some {| l_title := Some "Docs"; l_url := None |}];
     webBrowsing := None |}.

(** * Properties *)

(** ** The file-name sanitizer *)

Section Sanitizer.

#[local] Arguments Str.isNameChar : simpl never.
#[local] Arguments Str.isUnderscore : simpl never.

Lemma isNameChar_underscore c : Str.isUnderscore c = true -> Str.isNameChar c = true.
Proof.
  unfold Str.isNameChar. intros ->. now rewrite !orb_true_r.
Qed.

Lemma replaceInvalid_allName s : Str.forallb Str.isNameChar (replaceInvalid s) = true.
Proof.
  unfold replaceInvalid.
  induction s as [|c r IH]; simpl; [reflexivity|].
  rewrite IH, andb_true_r.
  destruct (Str.isNameChar c) eqn:E; [assumption | reflexivity].
Qed.

Lemma replaceInvalid_fixed s :
  Str.forallb Str.isNameChar s = true ->
  replaceInvalid s = s.
Proof.
  unfold replaceInvalid.
  induction s as [|c r IH]; simpl; [reflexivity|].
  intros H. apply andb_prop in H as [Hc Hr].
  rewrite Hc. f_equal. now apply IH.
Qed.

Lemma collapse_allName s :
  Str.forallb Str.isNameChar s = true ->
  Str.forallb Str.isNameChar (collapseUnderscores s) = true.
Proof.
  induction s as [|c r IH]; simpl; [reflexivity|].
  intros H. apply andb_prop in H as [Hc Hr].
  destruct (Str.isUnderscore c && _); [now apply IH|].
  simpl. rewrite Hc. now apply IH.
Qed.

Lemma collapse_noDouble s : noDouble (collapseUnderscores s) = true.
Proof.
  induction s as [|c r IH]; simpl; [reflexivity|].
  destruct (Str.isUnderscore c && _) eqn:E; [assumption|].
  simpl. now rewrite E, IH.
Qed.

Lemma collapse_fixed s : noDouble s = true -> collapseUnderscores s = s.
Proof.
  induction s as [|c r IH]; simpl; [reflexivity|].
  intros H. apply andb_prop in H as [Hc Hr].
  rewrite (IH Hr). apply negb_true_iff in Hc. now rewrite Hc.
Qed.

Lemma trimLeading_allName s :
  Str.forallb Str.isNameChar s = true ->
  Str.forallb Str.isNameChar (trimLeading s) = true.
Proof.
  induction s as [|c r IH]; simpl; [reflexivity|].
  intros H. destruct (Str.isUnderscore c).
  - apply andb_prop in H as [_ Hr]. now apply IH.
  - exact H.
Qed.

Lemma trimLeading_noDouble s : noDouble s = true -> noDouble (trimLeading s) = true.
Proof.
  induction s as [|c r IH]; simpl; [reflexivity|].
  intros H. destruct (Str.isUnderscore c) eqn:E.
  - apply andb_prop in H as [_ Hr]. now apply IH.
  - simpl. now rewrite E in *.
Qed.

Lemma trimLeading_start s : Str.startsWithUnderscore (trimLeading s) = false.
Proof.
  induction s as [|c r IH]; simpl; [reflexivity|].
  destruct (Str.isUnderscore c) eqn:E; [assumption | exact E].
Qed.

Lemma trimLeading_fixed s : Str.startsWithUnderscore s = false -> trimLeading s = s.
Proof.
  destruct s as [|c r]; simpl; [reflexivity|]. now intros ->.
Qed.

Lemma trimTrailing_allName s :
  Str.forallb Str.isNameChar s = true ->
  Str.forallb Str.isNameChar (trimTrailing s) = true.
Proof.
  induction s as [|c r IH]; simpl; [reflexivity|].
  intros H. apply andb_prop in H as [Hc Hr].
  destruct (Str.isUnderscore c && _); [reflexivity|].
  simpl. rewrite Hc. now apply IH.
Qed.

Lemma trimTrailing_starts s :
  Str.startsWithUnderscore (trimTrailing s) = true -> Str.startsWithUnderscore s = true.
Proof.
  destruct s as [|c r]; simpl; [discriminate|].
  destruct (Str.isUnderscore c && _); [discriminate | auto].
Qed.

Lemma trimTrailing_start s :
  Str.startsWithUnderscore s = false ->
  Str.startsWithUnderscore (trimTrailing s) = false.
Proof.
  intros H. destruct (Str.startsWithUnderscore (trimTrailing s)) eqn:E; [|reflexivity].
  apply trimTrailing_starts in E. congruence.
Qed.

Lemma trimTrailing_noDouble s : noDouble s = true -> noDouble (trimTrailing s) = true.
Proof.
  induction s as [|c r IH]; simpl; [reflexivity|].
  intros H. apply andb_prop in H as [Hc Hr].
  destruct (Str.isUnderscore c && Str.isEmpty _); [reflexivity|].
  simpl. rewrite (IH Hr), andb_true_r.
  apply negb_true_iff. apply negb_true_iff in Hc.
  destruct (Str.isUnderscore c); [|reflexivity]. simpl in *.
  destruct (Str.startsWithUnderscore (trimTrailing r)) eqn:E; [|reflexivity].
  apply trimTrailing_starts in E. congruence.
Qed.

Lemma trimTrailing_end s : Str.endsWithUnderscore (trimTrailing s) = false.
Proof.
  induction s as [|c r IH]; simpl; [reflexivity|].
  destruct (Str.isUnderscore c) eqn:E; simpl.
  - destruct (trimTrailing r) eqn:T; simpl; [reflexivity|]. exact IH.
  - destruct (trimTrailing r) eqn:T; simpl; [exact E | exact IH].
Qed.

Lemma trimTrailing_fixed s : Str.endsWithUnderscore s = false -> trimTrailing s = s.
Proof.
  induction s as [|c r IH]; simpl; [reflexivity|].
  destruct r as [|c' r'].
  - intros ->. reflexivity.
  - intros H. rewrite (IH H). simpl. now rewrite andb_false_r.
Qed.

Lemma substring0_cons n c s :
  substring 0 (S n) (String c s) = String c (substring 0 n s).
Proof. reflexivity. Qed.

Lemma substring0_length n s : (String.length (substring 0 n s) <= n)%nat.
Proof.
  revert s. induction n as [|n IH]; intros [|c s]; simpl; try lia.
  specialize (IH s). lia.
Qed.

Lemma substring0_allName n s :
  Str.forallb Str.isNameChar s = true ->
  Str.forallb Str.isNameChar (substring 0 n s) = true.
Proof.
  revert s. induction n as [|n IH]; intros [|c s]; simpl; try reflexivity.
  intros H. apply andb_prop in H as [Hc Hr]. rewrite Hc. now apply IH.
Qed.

Lemma substring0_starts n s :
  Str.startsWithUnderscore (substring 0 n s) = true ->
  Str.startsWithUnderscore s = true.
Proof. destruct n, s; simpl; auto; discriminate. Qed.

Lemma substring0_noDouble n s : noDouble s = true -> noDouble (substring 0 n s) = true.
Proof.
  revert s. induction n as [|n IH]; intros [|c s]; simpl; try reflexivity.
  intros H. apply andb_prop in H as [Hc Hr]. rewrite (IH _ Hr), andb_true_r.
  apply negb_true_iff. apply negb_true_iff in Hc.
  destruct (Str.isUnderscore c); [|reflexivity]. simpl in *.
  destruct (Str.startsWithUnderscore (substring 0 n s)) eqn:E; [|reflexivity].
  apply substring0_starts in E. congruence.
Qed.

Lemma cleaned_allName x : Str.forallb Str.isNameChar (cleaned x) = true.
Proof.
  apply trimTrailing_allName, trimLeading_allName, collapse_allName,
    replaceInvalid_allName.
Qed.

Lemma cleaned_noDouble x : noDouble (cleaned x) = true.
Proof. apply trimTrailing_noDouble, trimLeading_noDouble, collapse_noDouble. Qed.

Lemma cleaned_start x : Str.startsWithUnderscore (cleaned x) = false.
Proof. apply trimTrailing_start, trimLeading_start. Qed.

Lemma cleaned_end x : Str.endsWithUnderscore (cleaned x) = false.
Proof. apply trimTrailing_end. Qed.

Lemma cleaned_fixed s :
  Str.forallb Str.isNameChar s = true -> noDouble s = true ->
  Str.startsWithUnderscore s = false -> Str.endsWithUnderscore s = false ->
  cleaned s = s.
Proof.
  intros Ha Hd Hs He. unfold cleaned, trimUnderscores.
  now rewrite replaceInvalid_fixed, collapse_fixed, trimLeading_fixed,
    trimTrailing_fixed.
Qed.

Lemma truncate_length m s :
  (Z.of_nat (String.length (truncate m s)) <= Z.max m 0)%Z.
Proof.
  unfold truncate. destruct (Z.ltb_spec m (Z.of_nat (String.length s))).
  - pose proof (substring0_length (Z.to_nat m) s). lia.
  - lia.
Qed.

Lemma truncate_props m s :
  Str.forallb Str.isNameChar s = true -> noDouble s = true ->
  Str.startsWithUnderscore s = false ->
  Str.forallb Str.isNameChar (truncate m s) = true /\ noDouble (truncate m s) = true
  /\ Str.startsWithUnderscore (truncate m s) = false.
Proof.
  intros Ha Hd Hs. unfold truncate.
  destruct (_ <? _)%Z; [|auto].
  repeat split.
  - now apply substring0_allName.
  - now apply substring0_noDouble.
  - destruct (Str.startsWithUnderscore (substring 0 _ s)) eqn:E; [|reflexivity].
    apply substring0_starts in E. congruence.
Qed.

Lemma truncate_short m s :
  (Z.of_nat (String.length s) <= m)%Z -> truncate m s = s.
Proof.
  intros H. unfold truncate.
  destruct (Z.ltb_spec m (Z.of_nat (String.length s))); [lia | reflexivity].
Qed.

Lemma sanitizeFileName_unfold name m :
  sanitizeFileName name m = Str.orElse (truncate m (cleaned name)) placeholderName.
Proof. reflexivity. Qed.

Lemma orElse_nonempty s d : d <> EmptyString -> Str.orElse s d <> EmptyString.
Proof. destruct s; simpl; [auto | discriminate]. Qed.

Lemma sanitizeFileName_nonempty name m : sanitizeFileName name m <> EmptyString.
Proof. rewrite sanitizeFileName_unfold. apply orElse_nonempty. discriminate. Qed.

Lemma sanitizeFileName_bound name m :
  (Z.of_nat (String.length (sanitizeFileName name m)) <= Z.max m 12)%Z.
Proof.
  rewrite sanitizeFileName_unfold.
  pose proof (truncate_length m (cleaned name)) as Ht.
  destruct (truncate m (cleaned name)); simpl in *; lia.
Qed.

(** The sanitized name is a fixed point of the three [replace] calls as
    soon as it does not end with an underscore. *)
Lemma cleaned_sanitizeFileName x m :
  Str.endsWithUnderscore (sanitizeFileName x m) = false ->
  cleaned (sanitizeFileName x m) = sanitizeFileName x m.
Proof.
  rewrite sanitizeFileName_unfold. intros He.
  destruct (truncate_props m (cleaned x) (cleaned_allName x) (cleaned_noDouble x)
              (cleaned_start x)) as (Ha & Hd & Hs).
  destruct (truncate m (cleaned x)) eqn:T; simpl in *.
  - reflexivity.
  - now apply cleaned_fixed.
Qed.

(** A name that was not cut is sanitized to itself. *)
Lemma sanitizeFileName_short_idempotent x :
  (String.length (cleaned x) <= 50)%nat ->
  sanitizeFileName50 (sanitizeFileName50 x) = sanitizeFileName50 x.
Proof.
  intros Hlen.
  assert (He : Str.endsWithUnderscore (sanitizeFileName50 x) = false).
  { unfold sanitizeFileName50. rewrite sanitizeFileName_unfold, truncate_short by lia.
    pose proof (cleaned_end x) as H. now destruct (cleaned x). }
  pose proof (cleaned_sanitizeFileName x 50 He) as Hfix.
  pose proof (sanitizeFileName_bound x 50) as Hb.
  pose proof (sanitizeFileName_nonempty x 50) as Hne.
  unfold sanitizeFileName50 in *.
  rewrite (sanitizeFileName_unfold (sanitizeFileName x 50)).
  rewrite Hfix, truncate_short by lia.
  now destruct (sanitizeFileName x 50).
Qed.

End Sanitizer.

(** C9.  For every input string and every [maxLength], [sanitizeFileName]
    returns a non-empty string of at most [max maxLength 12] characters, 12
    being the length of the placeholder [unnamed_chat]; with the default
    [maxLength] of 50 the result has between 1 and 50 characters. *)
Theorem sanitizeFileName_length (name : string) (maxLength : Z) :
  sanitizeFileName name maxLength <> EmptyString
  /\ (Z.of_nat (String.length (sanitizeFileName name maxLength))
      <= Z.max maxLength 12)%Z
  /\ String.length placeholderName = 12%nat
  /\ (1 <= String.length (sanitizeFileName50 name) <= 50)%nat.
Proof.
  split; [apply sanitizeFileName_nonempty|].
  split; [apply sanitizeFileName_bound|].
  split; [reflexivity|].
  unfold sanitizeFileName50.
  pose proof (sanitizeFileName_nonempty name 50) as Hne.
  pose proof (sanitizeFileName_bound name 50) as Hlen.
  destruct (sanitizeFileName name 50); [congruence|]. simpl in *. lia.
Qed.

(** C3, as amended.  With the default maximum length of 50,
    [sanitizeFileName] is idempotent on every input whose sanitized name
    does not end with an underscore: [sanitizeFileName (sanitizeFileName x)]
    equals [sanitizeFileName x].  (Only the cut at 50 characters can leave
    an underscore at the end.) *)
Theorem sanitizeFileName50_idempotent_unless_cut (x : string) :
  Str.endsWithUnderscore (sanitizeFileName50 x) = false ->
  sanitizeFileName50 (sanitizeFileName50 x) = sanitizeFileName50 x.
Proof.
  intros He. unfold sanitizeFileName50 in *.
  pose proof (cleaned_sanitizeFileName x 50 He) as Hfix.
  pose proof (sanitizeFileName_bound x 50) as Hb.
  pose proof (sanitizeFileName_nonempty x 50) as Hne.
  rewrite (sanitizeFileName_unfold (sanitizeFileName x 50)).
  rewrite Hfix, truncate_short by lia.
  now destruct (sanitizeFileName x 50).
Qed.

Lemma sanitizeFileName50_idempotent_unless_cut_witness :
  Str.endsWithUnderscore (sanitizeFileName50 "Trip Planning") = false
  /\ sanitizeFileName50 (sanitizeFileName50 "Trip Planning")
     = sanitizeFileName50 "Trip Planning".
Proof.
  split.
  - reflexivity.
  - apply (sanitizeFileName50_idempotent_unless_cut "Trip Planning"). reflexivity.
Defined.

(** C3 as stated fails: a name cut just after an underscore loses that
    underscore when it is sanitized again. *)
Lemma sanitizeFileName50_not_idempotent :
  let x := "aaaaaaaaaaaaaaaaaaaaaaaaaaaaaaaaaaaaaaaaaaaaaaaaa_b" in
  sanitizeFileName50 x = "aaaaaaaaaaaaaaaaaaaaaaaaaaaaaaaaaaaaaaaaaaaaaaaaa_"
  /\ sanitizeFileName50 (sanitizeFileName50 x)
     = "aaaaaaaaaaaaaaaaaaaaaaaaaaaaaaaaaaaaaaaaaaaaaaaaa"
  /\ sanitizeFileName50 (sanitizeFileName50 x) <> sanitizeFileName50 x.
Proof. vm_compute. repeat split. discriminate. Qed.

(** The two examples of the specification. *)
Example sanitizeFileName_placeholder :
  sanitizeFileName50 EmptyString = "unnamed_chat"
  /\ sanitizeFileName50 "***" = "unnamed_chat".
Proof. split; reflexivity. Qed.

(** ** The timestamp normalizer *)

Section Normalizer.

Variable h : Host.

Lemma getSafeTimestamp_valid t w d :
  Date_new h t = Some d -> (d <= clock h (ticks w))%Z ->
  getSafeTimestamp h t w = (t, {| ticks := S (ticks w); console := console w |}).
Proof.
  intros Hd Hle. unfold getSafeTimestamp, isValidTimestamp, bind, Date_now, ret.
  rewrite Hd. simpl. apply Z.leb_le in Hle. now rewrite Hle.
Qed.

Lemma getSafeTimestamp_invalid t w :
  (Date_new h t = None
   \/ exists d, Date_new h t = Some d /\ (clock h (ticks w) < d)%Z) ->
  getSafeTimestamp h t w
  = (VNum (clock h (S (ticks w))),
     {| ticks := S (S (ticks w)); console := console w |}).
Proof.
  intros H. unfold getSafeTimestamp, isValidTimestamp, bind, Date_now, ret.
  destruct H as [-> | (d & -> & Hlt)]; simpl; [reflexivity|].
  apply Z.leb_gt in Hlt. now rewrite Hlt.
Qed.

Lemma getSafeTimestamp_frame t w c :
  getSafeTimestamp h t (withConsole c w)
  = (fst (getSafeTimestamp h t w), withConsole c (snd (getSafeTimestamp h t w))).
Proof.
  unfold getSafeTimestamp, isValidTimestamp, bind, Date_now, ret, withConsole. simpl.
  destruct (notNaN _ && _); reflexivity.
Qed.

Lemma formatMessageDateTime_frame t w c :
  formatMessageDateTime h t (withConsole c w)
  = (fst (formatMessageDateTime h t w),
     withConsole c (snd (formatMessageDateTime h t w))).
Proof.
  unfold formatMessageDateTime, bind, ret. rewrite getSafeTimestamp_frame.
  destruct (getSafeTimestamp h t w); reflexivity.
Qed.

Lemma messageDateTime_frame m w c :
  messageDateTime h m (withConsole c w)
  = (fst (messageDateTime h m w), withConsole c (snd (messageDateTime h m w))).
Proof.
  unfold messageDateTime, bind.
  destruct (truthy (timestamp m)).
  - rewrite getSafeTimestamp_frame. destruct (getSafeTimestamp h _ w) as [ts w1]. simpl.
    apply formatMessageDateTime_frame.
  - unfold Date_now, ret. simpl.
    apply (formatMessageDateTime_frame _
             {| ticks := S (ticks w); console := console w |}).
Qed.

Lemma messageDateTime_console m w :
  console (snd (messageDateTime h m w)) = console w.
Proof.
  pose proof (messageDateTime_frame m w (console w)) as H.
  replace (withConsole (console w) w) with w in H by (destruct w; reflexivity).
  rewrite H. reflexivity.
Qed.

End Normalizer.

(** C1.  The failing input is a [null] timestamp, which is what a missing
    timestamp is in a JSON file.  [new Date(null)] is the valid Date of time
    value 0, which is not later than the clock, so [getSafeTimestamp]
    returns [null] itself and not the reading of [Date.now()] it returns
    for [undefined]; [formatDate] and [formatMessageDateTime] then print
    the epoch, 1970-01-01, while the clock shows 2033, and the renderer of
    the earlier version puts that date in the document.  The value [false]
    is kept in the same way.  The renderer of [convert.js] tests the
    timestamp before it calls [getSafeTimestamp] and shows the current
    date for the same message. *)
Theorem getSafeTimestamp_null_is_the_epoch :
  let m := plainMessage "user" "hi" VNull in
  Date_new exampleHost VNull = Some 0%Z
  /\ run (getSafeTimestamp exampleHost VNull) world0 = VNull
  /\ run (getSafeTimestamp exampleHost VNull) world0 <> VNum (clock exampleHost 1)
  /\ run (getSafeTimestamp exampleHost VUndefined) world0 = VNum (clock exampleHost 1)
  /\ run (getSafeTimestamp exampleHost (VBool false)) world0 = VBool false
  /\ run (formatDate exampleHost VNull) world0 = "1970-01-01_0000"
  /\ run (formatMessageDateTime exampleHost VNull) world0 = ("1970-01-01", "00:00")
  /\ run (Part000.renderMessages exampleHost [Some m] renderState0) world0
     = Ok {| markdown := [ DateHeading "1970-01-01"; RoleHeading "USER" "00:00";
                           Content "hi"; Separator ];
             lastDate := "1970-01-01" |}
  /\ run (renderMessages exampleHost [Some m]) world0
     = [ DateHeading "2033-05-18"; RoleHeading "USER" "03:33";
         Content "hi"; Separator ].
Proof. cbn zeta. repeat split. discriminate. Qed.

(** The same on every host whose clock is not before 1970: [null]
    converts to the number 0 and is a valid timestamp, the epoch. *)
Lemma getSafeTimestamp_null (h : Host) (w : World) :
  (0 <= clock h (ticks w))%Z -> run (getSafeTimestamp h VNull) w = VNull.
Proof.
  intros H. unfold run. now rewrite (getSafeTimestamp_valid h VNull w 0%Z).
Qed.


Section Letters.

Lemma upperUnit_lowerChar c : Str.upperUnit (Str.lowerChar c) = Str.upperUnit c.
Proof. destruct c as [[] [] [] [] [] [] [] []]; reflexivity. Qed.

Lemma toUpperCase_toLowerCase s :
  Str.toUpperCase (Str.toLowerCase s) = Str.toUpperCase s.
Proof.
  unfold Str.toLowerCase.
  induction s as [|c r IH]; [reflexivity|].
  cbn [Str.map Str.toUpperCase]. now rewrite upperUnit_lowerChar, IH.
Qed.

(** The Latin-1 letters change case with the ASCII ones: e with acute,
    233, and its capital, 201. *)
Example toUpperCase_latin1 :
  Str.toUpperCase ("caf" ++ String (ascii_of_N 233) EmptyString)
  = "CAF" ++ String (ascii_of_N 201) EmptyString
  /\ Str.toLowerCase ("CAF" ++ String (ascii_of_N 201) EmptyString)
     = "caf" ++ String (ascii_of_N 233) EmptyString.
Proof. split; reflexivity. Qed.

(** The upper case of a code unit is [SS], for the sharp s, or one code
    unit; a code unit whose upper case is a capital A-Z has the lower case
    of that capital. *)
Lemma upperUnit_cases c :
  Str.upperUnit c = "SS" /\ (Str.code c =? 223)%N = true
  \/ Str.upperUnit c = String (Str.upperChar c) EmptyString
     /\ (Str.code c =? 223)%N = false
     /\ (Str.isCapital (Str.upperChar c) = true ->
         Str.lowerChar c = Str.lowerChar (Str.upperChar c)).
Proof.
  destruct c as [[] [] [] [] [] [] [] []];
    first [ left; split; reflexivity
          | right; split; [reflexivity|]; split; [reflexivity|];
            first [ reflexivity | intros H; discriminate H ] ].
Qed.

(** A string whose upper case is a word of capitals A-Z without [SS] has
    the lower case of that word. *)
Lemma toLowerCase_of_capitals r : forall t,
  Str.toUpperCase r = t ->
  Str.forallb Str.isCapital t = true -> Str.noDoubleS t = true ->
  Str.toLowerCase r = Str.toLowerCase t.
Proof.
  unfold Str.toLowerCase.
  induction r as [|c r IH]; intros t Ht Hcap Hss; cbn [Str.toUpperCase] in Ht.
  - now subst t.
  - destruct (upperUnit_cases c) as [[Hu _] | (Hu & _ & Hl)]; rewrite Hu in Ht.
    + subst t. cbn in Hss. discriminate Hss.
    + subst t. cbn [Str.forallb] in Hcap. apply andb_prop in Hcap as [Hc Hcap].
      cbn [Str.noDoubleS] in Hss. apply andb_prop in Hss as [_ Hss].
      cbn [append Str.map]. now rewrite (IH _ eq_refl Hcap Hss), (Hl Hc).
Qed.


(** The test [role === 'SYSTEM'] of the renderer is the case-insensitive
    comparison with [system]. *)
Lemma isSystemRole_iff r : isSystemRole r <-> Str.toUpperCase r = "SYSTEM".
Proof.
  unfold isSystemRole. split; intros H.
  - rewrite <- toUpperCase_toLowerCase, H. reflexivity.
  - now rewrite (toLowerCase_of_capitals r "SYSTEM" H).
Qed.

End Letters.

Section Renderer.

Variable h : Host.

Lemma renderMessage_valid st msg m r w :
  validRole msg = Some (m, r) ->
  renderMessage h st msg w
  = (let dt := fst (messageDateTime h m w) in
     {| markdown := markdown st ++ dateHeadingFor st (fst dt)
                    ++ messageBody (Str.toUpperCase r) m (snd dt);
        lastDate := cursorAfter st (fst dt) |},
     snd (messageDateTime h m w)).
Proof.
  intros Hv. unfold renderMessage. rewrite Hv. unfold bind, ret.
  destruct (messageDateTime h m w) as [[date time] w1]. simpl.
  unfold dateHeadingFor, cursorAfter, emit.
  destruct (String.eqb date (lastDate st)); simpl.
  - reflexivity.
  - now rewrite <- app_assoc.
Qed.

Lemma renderMessage_skipped st msg w :
  validRole msg = None ->
  renderMessage h st msg w
  = (st, withConsole (console w ++ [(Warn, skipWarning)]) w).
Proof. intros Hv. unfold renderMessage. now rewrite Hv. Qed.

Lemma validRole_Some m r : role m = Some r -> validRole (Some m) = Some (m, r).
Proof. intros H. unfold validRole. now rewrite H. Qed.

Lemma messageBody_system m r time :
  isSystemRole r ->
  messageBody (Str.toUpperCase r) m time
  = [SystemBlock (optString (content m) EmptyString); Separator].
Proof.
  intros H. apply isSystemRole_iff in H. unfold messageBody. rewrite H. reflexivity.
Qed.

Lemma messageBody_other m r time :
  ~ isSystemRole r ->
  messageBody (Str.toUpperCase r) m time
  = roleHeading (Str.toUpperCase r) m time
    :: Content (optString (content m) EmptyString)
    :: (if hasItems (pictures m) then [PicturesMarker] else [])
    ++ (if hasItems (files m) then [FilesMarker] else [])
    ++ linksSection m ++ webSection m ++ [Separator].
Proof.
  intros H. unfold messageBody.
  destruct (String.eqb_spec (Str.toUpperCase r) "SYSTEM") as [E|E].
  - now apply isSystemRole_iff in E.
  - simpl. now rewrite <- !app_assoc.
Qed.

Lemma linkLines_no_url line ls :
  (forall l, In l ls -> linkUrl l = None) -> linkLines line ls = [].
Proof.
  unfold linkLines. induction ls as [|l ls IH]; cbn [flat_map]; [reflexivity|].
  intros H. rewrite IH by (intros; apply H; now right).
  pose proof (H l (or_introl eq_refl)) as Hl.
  destruct l as [lk|]; [|reflexivity]. now rewrite Hl.
Qed.

Lemma webLinkLines_no_link_line ls :
  existsb isLinkLine (linkLines WebLinkLine ls) = false.
Proof.
  unfold linkLines. induction ls as [|l ls IH]; cbn [flat_map]; [reflexivity|].
  rewrite existsb_app, IH, orb_false_r.
  destruct l as [lk|]; [|reflexivity]. now destruct (linkUrl (Some lk)).
Qed.

Lemma webSection_no_link_line m : existsb isLinkLine (webSection m) = false.
Proof.
  unfold webSection. destruct (nonEmpty _); [|reflexivity].
  cbn [existsb isLinkLine orb]. apply webLinkLines_no_link_line.
Qed.

End Renderer.

(** C5.  For a message whose role is [system] in any letter case, the
    renderer appends, after the date heading if the date changed, exactly
    the fenced block and the separator: the line [```system], the content,
    a line [```] and a blank line.  No role heading is among the pieces,
    and neither the model nor the time occurs in them. *)
Theorem system_message_is_fenced (h : Host) (st : renderState) (m : message)
    (r : string) (w : World) :
  role m = Some r -> isSystemRole r ->
  let st' := run (renderMessage h st (Some m)) w in
  let date := fst (run (messageDateTime h m) w) in
  let c := optString (content m) EmptyString in
  markdown st'
  = (markdown st ++ dateHeadingFor st date ++ [SystemBlock c; Separator])%list
  /\ existsb isRoleHeading (dateHeadingFor st date ++ [SystemBlock c; Separator])
     = false
  /\ show (SystemBlock c) = "```system" ++ nl ++ c ++ nl ++ "```" ++ nl ++ nl.
Proof.
  intros Hr Hs. unfold run.
  rewrite (renderMessage_valid h st _ m r w (validRole_Some m r Hr)).
  cbn [fst snd markdown]. rewrite messageBody_system by assumption.
  repeat split. unfold dateHeadingFor. now destruct (String.eqb _ _).
Qed.

Lemma system_message_is_fenced_witness :
  markdown (run (renderMessage exampleHost renderState0
                   (Some (plainMessage "System" "ls -la" (VNum 1709288100000)))) world0)
  = [DateHeading "2024-03-01"; SystemBlock "ls -la"; Separator].
Proof.
  apply (system_message_is_fenced exampleHost renderState0
           (plainMessage "System" "ls -la" (VNum 1709288100000)) "System" world0).
  - reflexivity.
  - reflexivity.
Defined.

(** C10.  For a message that is not a system message and whose [links]
    array is not empty while no entry has a url, the renderer still appends
    the [{links}] marker line, and no link line under it: what follows the
    marker is the web-search section and the separator. *)
Theorem links_marker_without_link_lines (h : Host) (st : renderState)
    (m : message) (r : string) (ls : list (option link)) (w : World) :
  role m = Some r -> ~ isSystemRole r ->
  links m = Some ls -> ls <> [] ->
  (forall l, In l ls -> linkUrl l = None) ->
  let st' := run (renderMessage h st (Some m)) w in
  let dt := run (messageDateTime h m) w in
  linksSection m = [LinksMarker]
  /\ markdown st'
     = (markdown st ++ dateHeadingFor st (fst dt)
        ++ [roleHeading (Str.toUpperCase r) m (snd dt);
            Content (optString (content m) EmptyString)]
        ++ (if hasItems (pictures m) then [PicturesMarker] else [])
        ++ (if hasItems (files m) then [FilesMarker] else [])
        ++ [LinksMarker] ++ webSection m ++ [Separator])%list
  /\ existsb isLinkLine (webSection m ++ [Separator]) = false
  /\ show LinksMarker = nl ++ "{links}" ++ nl.
Proof.
  intros Hr Hs Hl Hne Hu.
  assert (Hsec : linksSection m = [LinksMarker]).
  { unfold linksSection. rewrite Hl. destruct ls as [|l ls']; [congruence|].
    simpl nonEmpty. cbn [elements]. now rewrite linkLines_no_url. }
  split; [exact Hsec|]. split; [|split; [|reflexivity]].
  - unfold run. rewrite (renderMessage_valid h st _ m r w (validRole_Some m r Hr)).
    cbn [fst snd markdown]. rewrite messageBody_other by assumption.
    rewrite Hsec. reflexivity.
  - now rewrite existsb_app, webSection_no_link_line.
Qed.

Lemma links_marker_without_link_lines_witness :
  markdown (run (renderMessage exampleHost renderState0 (Some linklessMessage)) world0)
  = [DateHeading "2024-03-01"; RoleHeading "USER" "10:15"; Content "see";
     LinksMarker; Separator].
Proof.
  refine (proj1 (proj2 (links_marker_without_link_lines exampleHost renderState0
            linklessMessage "user" _ world0 eq_refl _ eq_refl _ _))).
  - unfold isSystemRole. vm_compute. discriminate.
  - discriminate.
  - intros l [<- | [<- | []]]; reflexivity.
Defined.


Section Loop.

Variable h : Host.

Lemma withConsole_idem c c' w : withConsole c (withConsole c' w) = withConsole c w.
Proof. reflexivity. Qed.

Lemma withConsole_same w : withConsole (console w) w = w.
Proof. now destruct w. Qed.

Lemma isSkipped_validRole msg :
  isSkipped msg = true <-> validRole msg = None.
Proof. unfold isSkipped. destruct (validRole msg); split; congruence. Qed.

Lemma forEach_cons {A S} (f : S -> A -> M S) x rest s w :
  forEach f (x :: rest) s w = forEach f rest (fst (f s x w)) (snd (f s x w)).
Proof. cbn [forEach]. unfold bind. now destruct (f s x w). Qed.

(** The loop on a list equals the loop on the messages it does not skip,
    up to the warnings. *)
Lemma forEach_rendered msgs : forall st w c,
  let r := forEach (renderMessage h) msgs st w in
  forEach (renderMessage h) (rendered msgs) st (withConsole c w)
    = (fst r, withConsole c (snd r))
  /\ console (snd r)
     = (console w ++ repeat (Warn, skipWarning) (skippedCount msgs))%list.
Proof.
  induction msgs as [|msg rest IH]; intros st w c; cbn zeta.
  - simpl. now rewrite app_nil_r.
  - unfold rendered, skippedCount. cbn [filter]. rewrite forEach_cons.
    destruct (validRole msg) as [[m r]|] eqn:Hv.
    + assert (Hs : isSkipped msg = false) by (unfold isSkipped; now rewrite Hv).
      rewrite Hs. cbn [negb]. rewrite forEach_cons.
      rewrite !(renderMessage_valid h _ msg m r) by assumption.
      rewrite messageDateTime_frame. cbn [fst snd].
      match goal with
      | |- context [forEach _ rest ?s (snd (messageDateTime h m w))] =>
          destruct (IH s (snd (messageDateTime h m w)) c) as [IH1 IH2]
      end.
      split; [exact IH1|]. rewrite IH2. now rewrite messageDateTime_console.
    + assert (Hs : isSkipped msg = true) by (unfold isSkipped; now rewrite Hv).
      rewrite Hs. cbn [negb]. rewrite renderMessage_skipped by assumption.
      cbn [fst snd].
      destruct (IH st (withConsole (console w ++ [(Warn, skipWarning)]) w) c)
        as [IH1 IH2].
      split; [exact IH1|]. rewrite IH2. cbn [console withConsole List.length repeat].
      now rewrite <- app_assoc.
Qed.

End Loop.

(** C8.  Rendering a list of messages gives the pieces of rendering only
    the messages that have a role, and prints one warning per message
    without one; a chat whose [messages] is not an array, or no chat at
    all, gives the placeholder document and one warning. *)
Theorem invalid_messages_are_skipped (h : Host) (msgs : list (option message))
    (w : World) :
  run (renderMessages h msgs) w = run (renderMessages h (rendered msgs)) w
  /\ (forall t,
        run (convertChatToMarkdown h (Some {| title := t; messages := Some msgs |})) w
        = run (convertChatToMarkdown h
                 (Some {| title := t; messages := Some (rendered msgs) |})) w)
  /\ console (snd (renderMessages h msgs w))
     = (console w ++ repeat (Warn, skipWarning) (skippedCount msgs))%list
  /\ (forall t, convertChatToMarkdown h (Some {| title := t; messages := None |}) w
                = (noMessagesDocument,
                   withConsole (console w ++ [(Warn, noMessagesWarning)]) w))
  /\ convertChatToMarkdown h None w
     = (noMessagesDocument, withConsole (console w ++ [(Warn, noMessagesWarning)]) w).
Proof.
  destruct (forEach_rendered h msgs renderState0 w (console w)) as [H1 H2].
  rewrite withConsole_same in H1.
  assert (H : run (renderMessages h msgs) w
              = run (renderMessages h (rendered msgs)) w).
  { unfold run, renderMessages, bind, ret. rewrite H1.
    now destruct (forEach (renderMessage h) msgs renderState0 w). }
  repeat split.
  - exact H.
  - intros t. unfold run in *. cbn [convertChatToMarkdown]. unfold bind, ret.
    destruct (renderMessages h msgs w), (renderMessages h (rendered msgs) w).
    cbn [fst] in *. now subst.
  - unfold renderMessages, bind, ret.
    destruct (forEach (renderMessage h) msgs renderState0 w); exact H2.
Qed.

(** A message without a role and a null message between two messages. *)
Example skipping_example :
  let msgs := [ Some (plainMessage "user" "a" sampleDay1); Some roleless; None;
                Some (plainMessage "assistant" "b" sampleDay1) ] in
  renderMessages exampleHost msgs world0
  = ([ DateHeading "2024-03-01"; RoleHeading "USER" "10:15"; Content "a"; Separator;
       RoleHeading "ASSISTANT" "10:15"; Content "b"; Separator ],
     {| ticks := 4; console := [(Warn, skipWarning); (Warn, skipWarning)] |}).
Proof. reflexivity. Qed.

Section Headings.

Variable h : Host.

Lemma dateHeadings_app ps qs :
  dateHeadings (ps ++ qs) = (dateHeadings ps ++ dateHeadings qs)%list.
Proof. apply flat_map_app. Qed.

Lemma dateHeadings_cons p ps :
  dateHeadings (p :: ps) = (dateHeadings [p] ++ dateHeadings ps)%list.
Proof. exact (dateHeadings_app [p] ps). Qed.

Lemma dateHeadings_linkLines line ls :
  (forall a b, dateHeadings [line a b] = []) ->
  dateHeadings (linkLines line ls) = [].
Proof.
  intros Hline. unfold linkLines.
  induction ls as [|l ls IH]; cbn [flat_map]; [reflexivity|].
  rewrite dateHeadings_app, IH, app_nil_r.
  destruct l as [lk|]; [|reflexivity].
  destruct (linkUrl (Some lk)); [apply Hline | reflexivity].
Qed.

Lemma dateHeadings_messageBody R m time : dateHeadings (messageBody R m time) = [].
Proof.
  unfold messageBody. rewrite dateHeadings_app, app_nil_r.
  destruct (String.eqb R "SYSTEM"); [reflexivity|].
  rewrite (dateHeadings_cons (roleHeading R m time)).
  rewrite (dateHeadings_cons (Content _)).
  rewrite !dateHeadings_app.
  unfold roleHeading, linksSection, webSection.
  repeat match goal with
         | |- context [if ?b then _ else _] => destruct b
         end;
    cbn [dateHeadings flat_map app];
    rewrite ?dateHeadings_linkLines by reflexivity; reflexivity.
Qed.

Lemma dateHeadings_dateHeadingFor st d :
  dateHeadings (dateHeadingFor st d) = headingsFrom (lastDate st) [d].
Proof.
  unfold dateHeadingFor. cbn [headingsFrom]. now destruct (String.eqb d (lastDate st)).
Qed.

Lemma messageDates_frame msgs : forall w c,
  messageDates h msgs (withConsole c w)
  = (fst (messageDates h msgs w), withConsole c (snd (messageDates h msgs w))).
Proof.
  induction msgs as [|msg rest IH]; intros w c; cbn [messageDates].
  - reflexivity.
  - destruct (validRole msg) as [[m r]|]; [|apply IH].
    unfold bind, ret. rewrite messageDateTime_frame.
    destruct (messageDateTime h m w) as [dt w1]. cbn [fst snd].
    rewrite IH. now destruct (messageDates h rest w1).
Qed.

Lemma headingsFrom_cons cursor d ds :
  headingsFrom cursor (d :: ds)
  = (headingsFrom cursor [d]
     ++ headingsFrom (if String.eqb d cursor then cursor else d) ds)%list.
Proof. cbn [headingsFrom]. now destruct (String.eqb d cursor). Qed.

(** A date heading is appended exactly when the date of a rendered message
    differs from the cursor. *)
Lemma forEach_dateHeadings msgs : forall st w,
  dateHeadings (markdown (fst (forEach (renderMessage h) msgs st w)))
  = (dateHeadings (markdown st)
     ++ headingsFrom (lastDate st) (fst (messageDates h msgs w)))%list.
Proof.
  induction msgs as [|msg rest IH]; intros st w.
  - simpl. now rewrite app_nil_r.
  - rewrite forEach_cons. cbn [messageDates].
    destruct (validRole msg) as [[m r]|] eqn:Hv.
    + rewrite (renderMessage_valid h _ msg m r) by assumption. cbn [fst snd].
      rewrite IH. cbn [markdown lastDate]. unfold bind, ret.
      destruct (messageDateTime h m w) as [[date time] w1]. cbn [fst snd].
      destruct (messageDates h rest w1) as [ds w2]. cbn [fst].
      rewrite !dateHeadings_app, dateHeadings_messageBody, app_nil_r.
      rewrite dateHeadings_dateHeadingFor, <- app_assoc.
      f_equal. rewrite (headingsFrom_cons (lastDate st) date ds). reflexivity.
    + rewrite renderMessage_skipped by assumption. cbn [fst snd].
      rewrite IH. rewrite messageDates_frame. reflexivity.
Qed.

Lemma append_nonempty_r (a b : string) : b <> EmptyString -> a ++ b <> EmptyString.
Proof. destruct a; simpl; [auto | discriminate]. Qed.

Lemma messageDateTime_date_nonempty m w :
  fst (fst (messageDateTime h m w)) <> EmptyString.
Proof.
  unfold messageDateTime, formatMessageDateTime, bind, ret.
  destruct (if truthy (timestamp m) then _ else _) as [ts w1].
  destruct (getSafeTimestamp h ts w1) as [safe w2]. cbn [fst].
  apply append_nonempty_r. discriminate.
Qed.

Lemma messageDates_nonempty msgs : forall w,
  Forall (fun d => d <> EmptyString) (fst (messageDates h msgs w)).
Proof.
  induction msgs as [|msg rest IH]; intros w; cbn [messageDates].
  - constructor.
  - destruct (validRole msg) as [[m r]|]; [|apply IH].
    unfold bind, ret. pose proof (messageDateTime_date_nonempty m w) as Hd.
    destruct (messageDateTime h m w) as [dt w1].
    specialize (IH w1). destruct (messageDates h rest w1) as [ds w2].
    constructor; assumption.
Qed.

Lemma headingsFrom_repeat d n ds :
  headingsFrom d (repeat d n ++ ds) = headingsFrom d ds.
Proof.
  induction n as [|n IH]; [reflexivity|].
  cbn [repeat app headingsFrom]. now rewrite String.eqb_refl.
Qed.

Lemma headingsFrom_two_runs c d1 d2 n1 n2 :
  d1 <> c -> d2 <> d1 ->
  headingsFrom c (repeat d1 (S n1) ++ repeat d2 (S n2)) = [d1; d2].
Proof.
  intros H1 H2. cbn [repeat app headingsFrom].
  apply String.eqb_neq in H1. rewrite H1. rewrite headingsFrom_repeat.
  cbn [headingsFrom]. apply String.eqb_neq in H2. rewrite H2.
  rewrite <- (app_nil_r (repeat d2 n2)), headingsFrom_repeat. reflexivity.
Qed.

End Headings.

(** C4, as amended.  A date heading is emitted exactly when the date of a
    rendered message differs from the cursor, which starts empty and holds
    the date of the message before.  So a session whose messages fall on
    two dates, all messages of the first date before all of the second,
    gets exactly two date headings, in that order. *)
Theorem date_headings_follow_the_cursor (h : Host)
    (msgs : list (option message)) (w : World) :
  let headings := dateHeadings (run (renderMessages h msgs) w) in
  let dates := run (messageDates h msgs) w in
  headings = headingsFrom EmptyString dates
  /\ (forall d1 d2 n1 n2,
        d1 <> d2 ->
        dates = (repeat d1 (S n1) ++ repeat d2 (S n2))%list ->
        headings = [d1; d2]).
Proof.
  cbn zeta.
  assert (H : dateHeadings (run (renderMessages h msgs) w)
              = headingsFrom EmptyString (run (messageDates h msgs) w)).
  { unfold run, renderMessages, bind, ret.
    pose proof (forEach_dateHeadings h msgs renderState0 w) as H.
    destruct (forEach (renderMessage h) msgs renderState0 w). exact H. }
  split; [exact H|].
  intros d1 d2 n1 n2 Hne Hd. rewrite H, Hd.
  apply headingsFrom_two_runs; [|congruence].
  pose proof (messageDates_nonempty h msgs w) as Hall.
  unfold run in Hd. rewrite Hd in Hall. now inversion Hall.
Qed.

Lemma date_headings_follow_the_cursor_witness :
  dateHeadings (run (renderMessages exampleHost twoDays) world0)
  = ["2024-03-01"; "2024-03-02"].
Proof.
  refine (proj2 (date_headings_follow_the_cursor exampleHost twoDays world0)
            "2024-03-01" "2024-03-02" 1 0 _ _).
  - discriminate.
  - reflexivity.
Defined.

(** C4 as stated fails: messages on two dates that alternate get three
    date headings. *)
Lemma two_dates_three_headings :
  let dates := run (messageDates exampleHost backAndForth) world0 in
  let headings := dateHeadings (run (renderMessages exampleHost backAndForth) world0) in
  nodup string_dec dates = ["2024-03-02"; "2024-03-01"]
  /\ headings = ["2024-03-01"; "2024-03-02"; "2024-03-01"]
  /\ List.length headings <> 2.
Proof. vm_compute. repeat split. discriminate. Qed.


Section Cherry.

Variable h : Host.

(** What the [try] block does once it has the JSON text. *)
Lemma parseCherryStudioBody_text filePath jsonContent title w :
  jsonText h filePath = Some jsonContent ->
  exists pre,
    forallb isLog pre = true
    /\ forall r w',
        chatsOfJson h jsonContent title
          (withConsole (console w ++ pre) w) = (r, w') ->
        parseCherryStudioBody h filePath title w = (r, w').
Proof.
  unfold jsonText, parseCherryStudioBody. intros H.
  destruct (endsWith filePath ".zip").
  - destruct (openZip h filePath) as [zipEntries|]; [|discriminate].
    destruct (find isJsonEntry zipEntries) as [e|]; [|discriminate].
    injection H as <-.
    exists [(Log, "   Extracting " ++ entryName e ++ " from ZIP...")].
    split; [reflexivity|]. intros r w' Hc. exact Hc.
  - destruct (endsWith filePath ".json"); [|discriminate].
    rewrite H. exists [(Log, "   Reading direct JSON: " ++ filePath)].
    split; [reflexivity|]. intros r w' Hc. exact Hc.
Qed.

Lemma mapLog_throws log : forall w,
  existsb (throwsOn h) log = true -> fst (mapLog h log w) = Throw.
Proof.
  induction log as [|x rest IH]; intros w; cbn [existsb mapLog]; [discriminate|].
  intros H. unfold bind, ret.
  destruct (convertLogEntry h x w) as [[m|] w1] eqn:Hc; [|reflexivity].
  assert (Hrest : existsb (throwsOn h) rest = true).
  { destruct (throwsOn h x) eqn:Hb; [|exact H].
    destruct x as [e| |]; cbn [convertLogEntry throwsOn] in Hc, Hb;
      [|discriminate Hc|discriminate Hc].
    unfold badTimestamp in Hb. unfold convertLogItem in Hc.
    apply andb_prop in Hb as [Ht Hd]. rewrite Ht in Hc.
    destruct (Date_new h (e_timestamp e)); discriminate. }
  specialize (IH w1 Hrest).
  destruct (mapLog h rest w1) as [[ms|] w2]; [discriminate | reflexivity].
Qed.

Lemma mapLog_console log : forall w, console (snd (mapLog h log w)) = console w.
Proof.
  induction log as [|x rest IH]; intros w; cbn [mapLog]; [reflexivity|].
  unfold bind, ret.
  assert (Hc : console (snd (convertLogEntry h x w)) = console w).
  { destruct x as [e| |]; cbn [convertLogEntry]; [|reflexivity|reflexivity].
    unfold convertLogItem. destruct (truthy _); [|reflexivity].
    now destruct (Date_new h _). }
  destruct (convertLogEntry h x w) as [[m|] w1]; [|exact Hc].
  specialize (IH w1). destruct (mapLog h rest w1) as [[ms|] w2];
    cbn [snd] in *; congruence.
Qed.

(** The message made from an entry whose timestamp parses, and from one
    without a timestamp. *)
Lemma convertLogItem_parsed e w t :
  truthy (e_timestamp e) = true -> Date_new h (e_timestamp e) = Some t ->
  convertLogItem h e w
  = (Ok (cherryMessage (cherryRole e) (optString (e_content e) EmptyString)
           (toISOString t)), w).
Proof. intros Ht Hd. unfold convertLogItem. now rewrite Ht, Hd. Qed.

Lemma convertLogItem_absent e w :
  truthy (e_timestamp e) = false ->
  convertLogItem h e w
  = (Ok (cherryMessage (cherryRole e) (optString (e_content e) EmptyString)
           (toISOString (clock h (ticks w)))),
     {| ticks := S (ticks w); console := console w |}).
Proof. intros Ht. unfold convertLogItem. now rewrite Ht. Qed.

Lemma cherryRole_alias e r :
  e_role e = Some r -> Str.toLowerCase r = "you" -> cherryRole e = "user".
Proof.
  intros He Hr. unfold cherryRole, optString. rewrite He.
  destruct r; [discriminate|]. cbn [Str.orElse Str.isEmpty]. now rewrite Hr.
Qed.

Lemma cherryRole_other e r :
  e_role e = Some r -> r <> EmptyString -> Str.toLowerCase r <> "you" ->
  cherryRole e = Str.toLowerCase r.
Proof.
  intros He Hne Hr. unfold cherryRole, optString. rewrite He.
  destruct r; [congruence|]. cbn [Str.orElse Str.isEmpty].
  apply String.eqb_neq in Hr. now rewrite Hr.
Qed.

(** When the callback throws on no entry, every entry becomes a message. *)
Lemma mapLog_ok log : forall w,
  existsb (throwsOn h) log = false ->
  exists ms, fst (mapLog h log w) = Ok ms
    /\ Forall2 (fun x m =>
                  exists e, x = Entry e
                    /\ role m = Some (cherryRole e)
                    /\ content m = Some (optString (e_content e) EmptyString))
         log ms.
Proof.
  induction log as [|x rest IH]; intros w; cbn [existsb mapLog].
  - intros _. exists []. split; [reflexivity | constructor].
  - intros H. apply orb_false_iff in H as [Hb Hrest]. unfold bind.
    destruct x as [e| |]; cbn [throwsOn] in Hb; [|discriminate Hb|discriminate Hb].
    cbn [convertLogEntry]. unfold badTimestamp in Hb.
    assert (Hconv : exists ts w1,
               convertLogItem h e w
               = (Ok (cherryMessage (cherryRole e)
                        (optString (e_content e) EmptyString) ts), w1)).
    { destruct (truthy (e_timestamp e)) eqn:Ht.
      - destruct (Date_new h (e_timestamp e)) as [t|] eqn:Hd; [|discriminate].
        do 2 eexists. eapply convertLogItem_parsed; eassumption.
      - do 2 eexists. apply convertLogItem_absent. exact Ht. }
    destruct Hconv as (ts & w1 & ->).
    destruct (IH w1 Hrest) as (ms & Hms & Hall).
    destruct (mapLog h rest w1) as [[ms'|] w2]; cbn [fst] in Hms; [|discriminate].
    injection Hms as ->. eexists. split; [reflexivity|].
    constructor; [|exact Hall]. exists e. repeat split.
Qed.

End Cherry.

Lemma parseCherryStudio_unfold (h : Host) filePath w r w' :
  parseCherryStudioBody h filePath
    (path_basename h filePath (path_extname h filePath)) (started filePath w)
  = (r, w') ->
  parseCherryStudio h filePath w
  = match r with
    | Ok chats => (chats, w')
    | Throw => ([], withConsole (console w' ++ [(Error, parseError filePath)]) w')
    end.
Proof.
  intros H. unfold parseCherryStudio, bind, say, ret.
  unfold started, withConsole in H. rewrite H. now destruct r.
Qed.

(** C7.  For an archive without a JSON entry, and for a JSON payload
    without a [log] array (the payload [null] included), [parseCherryStudio]
    returns the empty list, and the last line it prints is the diagnostic of
    that case, a warning or an error, after [console.log] lines only.  The
    function returns a list on every input: what is thrown inside the [try]
    block ends in its [catch]. *)
Theorem no_sessions_without_json_or_log (h : Host) (filePath : string)
    (d : level * string) (w : World) :
  withoutSessions h filePath d ->
  fst (parseCherryStudio h filePath w) = []
  /\ isLog d = false
  /\ exists pre,
       forallb isLog pre = true
       /\ console (snd (parseCherryStudio h filePath w))
          = (console w ++ pre ++ [d])%list.
Proof.
  intros H.
  set (title := path_basename h filePath (path_extname h filePath)).
  destruct H as [zipEntries Hz Ho Hf | jsonContent p Ht Hp Hl | jsonContent Ht Hp].
  - rewrite (parseCherryStudio_unfold h filePath w (Ok [])
               (withConsole (console (started filePath w)
                             ++ [(Warn, noJsonWarning filePath)]) w)).
    + split; [reflexivity|]. split; [reflexivity|].
      exists [(Log, "[Stub] Parsing Cherry Studio file: " ++ filePath)].
      split; [reflexivity|]. cbn [snd console withConsole started].
      now rewrite <- List.app_assoc.
    + unfold parseCherryStudioBody. now rewrite Hz, Ho, Hf.
  - destruct (parseCherryStudioBody_text h filePath jsonContent title
                (started filePath w) Ht) as (pre & Hpre & Hbody).
    rewrite (parseCherryStudio_unfold h filePath w (Ok [])
               (withConsole (console (started filePath w) ++ pre
                             ++ [(Warn, noLogWarning)]) w)).
    + split; [reflexivity|]. split; [reflexivity|].
      exists ((Log, "[Stub] Parsing Cherry Studio file: " ++ filePath) :: pre).
      split; [exact Hpre|]. cbn [snd console withConsole started].
      now rewrite <- !List.app_assoc.
    + apply Hbody. unfold chatsOfJson, chatsOfPayload. rewrite Hp, Hl.
      unfold bind, say, ret, withConsole. cbn [ticks console].
      now rewrite <- !List.app_assoc.
  - destruct (parseCherryStudioBody_text h filePath jsonContent title
                (started filePath w) Ht) as (pre & Hpre & Hbody).
    rewrite (parseCherryStudio_unfold h filePath w Throw
               (withConsole (console (started filePath w) ++ pre) w)).
    + split; [reflexivity|]. split; [reflexivity|].
      exists ((Log, "[Stub] Parsing Cherry Studio file: " ++ filePath) :: pre).
      split; [exact Hpre|]. cbn [snd console withConsole started].
      now rewrite <- !List.app_assoc.
    + apply Hbody. unfold chatsOfJson. now rewrite Hp.
Qed.

Lemma no_sessions_without_json_or_log_witness :
  fst (parseCherryStudio exampleHost "empty.zip" world0) = []
  /\ fst (parseCherryStudio exampleHost "nolog.json" world0) = [].
Proof.
  split.
  - refine (proj1 (no_sessions_without_json_or_log exampleHost "empty.zip"
                     (Warn, noJsonWarning "empty.zip") world0 _)).
    eapply ArchiveWithoutJson; reflexivity.
  - refine (proj1 (no_sessions_without_json_or_log exampleHost "nolog.json"
                     (Warn, noLogWarning) world0 _)).
    eapply PayloadWithoutLog; reflexivity.
Defined.

(** C6.  A log of one entry whose role is the alias [You] and whose
    timestamp does not parse: [toISOString] throws, the [catch] block prints
    the error, and the adapter returns no session and so no message for
    the entry. *)
Theorem unparsable_timestamp_loses_the_log :
  JSON_parse exampleHost "{badlog}"
  = Some (Some {| p_title := None;
                  p_log := Some [ Entry {| e_role := Some "You";
                                           e_content := Some "hi";
                                           e_timestamp := VStr "yesterday" |} ] |})
  /\ Date_new exampleHost (VStr "yesterday") = None
  /\ parseCherryStudio exampleHost "bad.json" world0
     = ([], {| ticks := 0;
               console := [ (Log, "[Stub] Parsing Cherry Studio file: bad.json");
                            (Log, "   Reading direct JSON: bad.json");
                            (Error, parseError "bad.json") ] |}).
Proof. repeat split. Qed.

(** The same for every host and every log with an entry the callback
    throws on. *)
Lemma bad_timestamp_no_sessions (h : Host) (filePath jsonContent : string)
    (p : payload) (log : list logEntry) (w : World) :
  jsonText h filePath = Some jsonContent ->
  JSON_parse h jsonContent = Some (Some p) ->
  p_log p = Some log ->
  existsb (throwsOn h) log = true ->
  run (parseCherryStudio h filePath) w = [].
Proof.
  intros Ht Hp Hl Hb. unfold run.
  set (title := path_basename h filePath (path_extname h filePath)).
  destruct (parseCherryStudioBody_text h filePath jsonContent title
              (started filePath w) Ht) as (pre & Hpre & Hbody).
  set (w1 := withConsole (console (started filePath w) ++ pre)
               (started filePath w)) in *.
  pose proof (mapLog_throws h log w1 Hb) as Hthrow.
  rewrite (parseCherryStudio_unfold h filePath w Throw (snd (mapLog h log w1)));
    [reflexivity|].
  apply Hbody. unfold chatsOfJson, chatsOfPayload. rewrite Hp, Hl. unfold bind.
  fold w1. destruct (mapLog h log w1) as [[ms|] w2]; [discriminate | reflexivity].
Qed.


Section FileNames.

Variable h : Host.

Lemma formatDate_unfold ts w :
  formatDate h ts w
  = (datePrefixOf h (Date_new h (fst (getSafeTimestamp h ts w))),
     snd (getSafeTimestamp h ts w)).
Proof.
  unfold formatDate, bind, ret, datePrefixOf.
  now destruct (getSafeTimestamp h ts w).
Qed.

(** The name [main] of the earlier version gives a session whose first
    message has a valid timestamp. *)
Lemma part000_fileName_first_message (s : Part000.session) m rest d w :
  Part000.s_messages s = Some m :: rest ->
  truthy (timestamp m) = true ->
  Date_new h (timestamp m) = Some d ->
  (d <= clock h (ticks w))%Z -> (d <= clock h (S (ticks w)))%Z ->
  run (Part000.fileName h s) w
  = datePrefixOf h (Some d) ++ "_" ++ sanitizeFileName50 (Part000.chatName s)
    ++ ".md".
Proof.
  intros Hm Ht Hd H1 H2. unfold run, Part000.fileName, bind, Part000.firstTimestamp.
  rewrite Hm, (getSafeTimestamp_valid h _ w d Hd H1), Ht. unfold ret.
  rewrite formatDate_unfold.
  rewrite (getSafeTimestamp_valid h _ {| ticks := S (ticks w); console := console w |}
             d Hd H2).
  cbn [fst snd]. now rewrite Hd.
Qed.

(** The name it gives a session without messages: the date of the clock
    reading taken for it. *)
Lemma part000_fileName_no_messages (s : Part000.session) w :
  let now := clock h (S (ticks w)) in
  Part000.s_messages s = [] ->
  now <> 0%Z -> TimeClip now = Some now ->
  (now <= clock h (S (S (ticks w))))%Z ->
  run (Part000.fileName h s) w
  = datePrefixOf h (Some now) ++ "_" ++ sanitizeFileName50 (Part000.chatName s)
    ++ ".md".
Proof.
  intros now Hm H0 Hclip Hle.
  unfold run, Part000.fileName, bind, Part000.firstTimestamp.
  rewrite Hm, getSafeTimestamp_invalid by (left; reflexivity).
  fold now. cbn [truthy]. apply Z.eqb_neq in H0. rewrite H0. cbn [negb]. unfold ret.
  rewrite formatDate_unfold.
  rewrite (getSafeTimestamp_valid h (VNum now)
             {| ticks := S (S (ticks w)); console := console w |} now Hclip Hle).
  cbn [fst snd Date_new]. now rewrite Hclip.
Qed.

End FileNames.

(** C2.  For the chat titled [Q&A: tips], [saveChatsToMarkdown] builds a
    name that keeps the ampersand, where the date prefix followed by the
    sanitized title is [2024-03-01_1015_Q_A_tips.md], the name [main] of
    the earlier version builds. *)
Theorem saveChatsToMarkdown_keeps_other_characters :
  run (saveFileName exampleHost tipsChat) world0
    = Ok "2024-03-01_1015_Q&A_tips.md"
  /\ run (formatDate exampleHost sampleDay1) world0 ++ "_"
       ++ sanitizeFileName50 (title tipsChat) ++ ".md"
     = "2024-03-01_1015_Q_A_tips.md"
  /\ run (Part000.fileName exampleHost tipsSession) world0
     = "2024-03-01_1015_Q_A_tips.md".
Proof. repeat split. Qed.

(** It does not normalize the timestamp either. *)
Lemma saveChatsToMarkdown_invalid_timestamp :
  run (saveFileName exampleHost
         {| title := "Notes";
            messages := Some [Some (plainMessage "user" "hi" (VStr "yesterday"))] |})
      world0
  = Ok "NaN-NaN-NaN_NaNNaN_Notes.md".
Proof. reflexivity. Qed.

(** ** The text of the document *)

Lemma append_assoc (a b c : string) : (a ++ b) ++ c = a ++ b ++ c.
Proof. induction a as [|x a IH]; simpl; [reflexivity | now rewrite IH]. Qed.

(** Appending pieces is appending their text. *)
Lemma text_app ps qs : text (ps ++ qs) = text ps ++ text qs.
Proof.
  induction ps as [|p ps IH]; [reflexivity|].
  cbn [app text fold_right]. fold (text (ps ++ qs)). fold (text ps).
  now rewrite IH, append_assoc.
Qed.

(** The end-to-end scenario of the specification. *)
Example trip_planning_document :
  run (convertChatToMarkdown exampleHost
         (Some {| title := "Trip Planning"; messages := Some tripPlanning |})) world0
  = "## 2024-03-01" ++ nl ++ nl
    ++ "### USER | 10:15" ++ nl ++ "Where to go?" ++ nl ++ nl
    ++ "### gpt-4 | 10:16" ++ nl ++ "Try Kyoto." ++ nl ++ nl.
Proof. reflexivity. Qed.

Example trip_planning_file_name :
  run (Part000.fileName exampleHost
         {| Part000.name := Some "Trip Planning"; Part000.threadName := None;
            Part000.s_messages := tripPlanning |}) world0
  = "2024-03-01_1015_Trip_Planning.md".
Proof. reflexivity. Qed.

(** ** The renderer of the earlier version *)

(** It fences a system message the same way; an absent content prints as
    [undefined] there. *)
Lemma part000_system_message (h : Host) (st : renderState) (m : message)
    (r : string) (w : World) :
  role m = Some r -> isSystemRole r ->
  exists date,
    run (Part000.renderMessage h st (Some m)) w
    = Ok {| markdown := markdown st ++ dateHeadingFor st date
                        ++ [SystemBlock (Part000.showOpt (content m)); Separator];
            lastDate := cursorAfter st date |}.
Proof.
  intros Hr Hs. apply isSystemRole_iff in Hs.
  unfold run, Part000.renderMessage. rewrite (validRole_Some m r Hr).
  unfold bind, ret.
  destruct (formatMessageDateTime h (timestamp m) w) as [[date time] w1].
  exists date. unfold Part000.messageBody. rewrite Hs, String.eqb_refl. cbn [fst].
  unfold dateHeadingFor, cursorAfter, emit.
  destruct (String.eqb date (lastDate st)); cbn [markdown lastDate].
  - reflexivity.
  - now rewrite <- List.app_assoc.
Qed.

(** It stops at a message without a role instead of skipping it. *)
Lemma part000_roleless_throws (h : Host) (st : renderState) (msg : option message)
    (rest : list (option message)) (w : World) :
  isSkipped msg = true ->
  run (Part000.renderMessages h (msg :: rest) st) w = Throw.
Proof.
  intros H. apply isSkipped_validRole in H.
  unfold run. cbn [Part000.renderMessages]. unfold bind, Part000.renderMessage.
  now rewrite H.
Qed.

(** * Further properties *)

(** ** More on the two sanitizers *)

Section SanitizerShape.

#[local] Arguments Str.isNameChar : simpl never.
#[local] Arguments Str.isUnderscore : simpl never.

Lemma replaceInvalid_length s : String.length (replaceInvalid s) = String.length s.
Proof.
  unfold replaceInvalid. induction s as [|c r IH]; simpl; [reflexivity | now rewrite IH].
Qed.

Lemma collapse_length s :
  (String.length (collapseUnderscores s) <= String.length s)%nat.
Proof.
  induction s as [|c r IH]; simpl; [lia|].
  destruct (Str.isUnderscore c && _); simpl; lia.
Qed.

Lemma trimLeading_length s : (String.length (trimLeading s) <= String.length s)%nat.
Proof.
  induction s as [|c r IH]; simpl; [lia|].
  destruct (Str.isUnderscore c); simpl; lia.
Qed.

Lemma trimTrailing_length s : (String.length (trimTrailing s) <= String.length s)%nat.
Proof.
  induction s as [|c r IH]; simpl; [lia|].
  destruct (Str.isUnderscore c && _); simpl; lia.
Qed.

Lemma cleaned_length x : (String.length (cleaned x) <= String.length x)%nat.
Proof.
  unfold cleaned, trimUnderscores.
  pose proof (trimTrailing_length (trimLeading (collapseUnderscores (replaceInvalid x)))).
  pose proof (trimLeading_length (collapseUnderscores (replaceInvalid x))).
  pose proof (collapse_length (replaceInvalid x)).
  pose proof (replaceInvalid_length x). lia.
Qed.

Lemma substring0_forallb p n s :
  Str.forallb p s = true -> Str.forallb p (substring 0 n s) = true.
Proof.
  revert s. induction n as [|n IH]; intros [|c s]; simpl; try reflexivity.
  intros H. apply andb_prop in H as [Hc Hr]. rewrite Hc. now apply IH.
Qed.

Lemma replaceUnsafeRuns_safe s : forall inRun,
  Str.forallb (fun c => negb (isUnsafeChar c)) (replaceUnsafeRuns inRun s) = true.
Proof.
  induction s as [|c r IH]; intros inRun; cbn [replaceUnsafeRuns]; [reflexivity|].
  destruct (isUnsafeChar c) eqn:E.
  - destruct inRun; [apply IH|]. cbn [Str.forallb]. rewrite IH. reflexivity.
  - cbn [Str.forallb]. now rewrite E, IH.
Qed.

End SanitizerShape.

(** X1.  The sanitized name is made of letters, digits, hyphens and underscores
    only, does not start with an underscore and has no two underscores in
    a row, whatever the input and the maximum length. *)
Theorem sanitizeFileName_shape (name : string) (maxLength : Z) :
  Str.forallb Str.isNameChar (sanitizeFileName name maxLength) = true
  /\ Str.startsWithUnderscore (sanitizeFileName name maxLength) = false
  /\ noDouble (sanitizeFileName name maxLength) = true.
Proof.
  rewrite sanitizeFileName_unfold.
  destruct (truncate_props maxLength (cleaned name) (cleaned_allName name)
              (cleaned_noDouble name) (cleaned_start name)) as (Ha & Hd & Hs).
  destruct (truncate maxLength (cleaned name)) eqn:T.
  - repeat split.
  - cbn [Str.orElse Str.isEmpty]. auto.
Qed.

(** X2.  A name that is already clean and short enough is returned as it is. *)
Theorem sanitizeFileName_keeps_clean_names (name : string) (maxLength : Z) :
  name <> EmptyString ->
  Str.forallb Str.isNameChar name = true ->
  noDouble name = true ->
  Str.startsWithUnderscore name = false ->
  Str.endsWithUnderscore name = false ->
  (Z.of_nat (String.length name) <= maxLength)%Z ->
  sanitizeFileName name maxLength = name.
Proof.
  intros Hne Ha Hd Hs He Hlen.
  rewrite sanitizeFileName_unfold, cleaned_fixed, truncate_short by assumption.
  now destruct name.
Qed.

Lemma sanitizeFileName_keeps_clean_names_witness :
  sanitizeFileName "Trip_Planning-2" 15 = "Trip_Planning-2".
Proof.
  apply sanitizeFileName_keeps_clean_names;
    [discriminate | reflexivity | reflexivity | reflexivity | reflexivity
    | vm_compute; discriminate].
Defined.

(** X3.  Sanitizing a sanitized name once more reaches a name that no further
    application changes. *)
Theorem sanitizeFileName50_stable_after_two (x : string) :
  sanitizeFileName50 (sanitizeFileName50 (sanitizeFileName50 x))
  = sanitizeFileName50 (sanitizeFileName50 x).
Proof.
  apply sanitizeFileName_short_idempotent.
  pose proof (cleaned_length (sanitizeFileName50 x)) as H1.
  pose proof (sanitizeFileName_bound x 50) as H2.
  unfold sanitizeFileName50 in *. lia.
Qed.

(** X4.  The title part of the name [saveChatsToMarkdown] builds is never empty,
    has at most 50 characters, and none of them is one of the characters
    the function replaces. *)
Theorem safeTitle_shape (title : string) :
  safeTitle title <> EmptyString
  /\ (String.length (safeTitle title) <= 50)%nat
  /\ Str.forallb (fun c => negb (isUnsafeChar c)) (safeTitle title) = true.
Proof.
  unfold safeTitle.
  pose proof (substring0_length 50 (replaceUnsafeRuns false title)) as Hlen.
  pose proof (substring0_forallb (fun c => negb (isUnsafeChar c)) 50 _
                (replaceUnsafeRuns_safe title false)) as Hsafe.
  destruct (substring 0 50 (replaceUnsafeRuns false title)) eqn:E.
  - cbn [Str.orElse Str.isEmpty]. repeat split; [discriminate | simpl; lia].
  - cbn [Str.orElse Str.isEmpty]. repeat split; [discriminate | exact Hlen | exact Hsafe].
Qed.

(** ** More on the timestamp normalizer *)

Section NormalizerMore.

Variable h : Host.

Lemma formatMessageDateTime_unfold ts w :
  formatMessageDateTime h ts w
  = ((dateText h (Date_new h (fst (getSafeTimestamp h ts w))),
      timeText h (Date_new h (fst (getSafeTimestamp h ts w)))),
     snd (getSafeTimestamp h ts w)).
Proof.
  unfold formatMessageDateTime, bind, ret, dateText, timeText.
  now destruct (getSafeTimestamp h ts w).
Qed.

Lemma Date_new_VNum n : Date_new h (VNum n) = TimeClip n.
Proof. reflexivity. Qed.

(** Either branch of [getSafeTimestamp], with the Date of its result. *)
Lemma getSafeTimestamp_cases t w :
  (exists d, Date_new h t = Some d /\ (d <= clock h (ticks w))%Z
             /\ getSafeTimestamp h t w
                = (t, {| ticks := S (ticks w); console := console w |}))
  \/ getSafeTimestamp h t w
     = (VNum (clock h (S (ticks w))),
        {| ticks := S (S (ticks w)); console := console w |}).
Proof.
  destruct (Date_new h t) as [d|] eqn:Hd.
  - destruct (Z.le_gt_cases d (clock h (ticks w))) as [Hle|Hgt].
    + left. exists d. repeat split; [exact Hle|].
      now apply getSafeTimestamp_valid with (d := d).
    + right. apply getSafeTimestamp_invalid. right. exists d. split; [exact Hd | lia].
  - right. apply getSafeTimestamp_invalid. now left.
Qed.

Lemma showZ_digit n : (0 <= n < 10)%Z -> showZ n = String (digitChar n) EmptyString.
Proof.
  intros H. unfold showZ. rewrite Z.abs_eq by lia.
  destruct (Z.ltb_spec n 0); [lia|].
  cbn [digits]. rewrite Z.mod_small by lia.
  destruct (Z.ltb_spec n 10); [reflexivity | lia].
Qed.

Lemma showZ_two_digits n :
  (10 <= n < 100)%Z ->
  showZ n = String (digitChar (n / 10)) (String (digitChar (n mod 10)) EmptyString).
Proof.
  intros H. unfold showZ. rewrite Z.abs_eq by lia.
  destruct (Z.ltb_spec n 0); [lia|].
  assert (Hlog : (3 <= Z.log2 n)%Z).
  { change 3%Z with (Z.log2 8). apply Z.log2_le_mono. lia. }
  destruct (Z.to_nat (Z.log2 n)) as [|fuel] eqn:Hf; [lia|].
  cbn [digits].
  destruct (Z.ltb_spec n 10); [lia|].
  assert (Hq : (0 <= n / 10 < 10)%Z).
  { split; [apply Z.div_pos; lia | apply Z.div_lt_upper_bound; lia]. }
  rewrite (Z.mod_small (n / 10)) by lia.
  destruct (Z.ltb_spec (n / 10) 10); [reflexivity | lia].
Qed.

(** [padStart(2, '0')] of a number below 100 is its two decimal digits. *)
Lemma pad2_digits n :
  (0 <= n < 100)%Z ->
  pad2 (Some n)
  = String (digitChar (n / 10)) (String (digitChar (n mod 10)) EmptyString).
Proof.
  intros H. unfold pad2, showNum, padStart0.
  destruct (Z.lt_ge_cases n 10) as [Hlt|Hge].
  - rewrite showZ_digit by lia. rewrite Z.div_small, Z.mod_small by lia. reflexivity.
  - rewrite showZ_two_digits by lia. reflexivity.
Qed.

Lemma HourFromTime_range t : (0 <= HourFromTime t < 24)%Z.
Proof. unfold HourFromTime. apply Z.mod_pos_bound. lia. Qed.

Lemma MinFromTime_range t : (0 <= MinFromTime t < 60)%Z.
Proof. unfold MinFromTime. apply Z.mod_pos_bound. lia. Qed.

End NormalizerMore.

(** X5.  When the clock reading is a time value a Date can hold, the timestamp
    [getSafeTimestamp] returns always makes a valid Date, so [formatDate]
    and [formatMessageDateTime] never print [NaN]. *)
Theorem getSafeTimestamp_gives_valid_date (h : Host) (t : jsval) (w : World) :
  readingInRange h (S (ticks w)) ->
  exists d,
    Date_new h (run (getSafeTimestamp h t) w) = Some d
    /\ run (formatDate h t) w = datePrefixOf h (Some d)
    /\ run (formatMessageDateTime h t) w = (dateText h (Some d), timeText h (Some d)).
Proof.
  intros Hr. unfold run. rewrite formatDate_unfold, formatMessageDateTime_unfold.
  cbn [fst].
  destruct (getSafeTimestamp_cases h t w) as [(d & Hd & _ & ->) | ->]; cbn [fst].
  - exists d. now rewrite Hd.
  - exists (clock h (S (ticks w))). rewrite Date_new_VNum, Hr. auto.
Qed.

Lemma getSafeTimestamp_gives_valid_date_witness :
  exists d,
    Date_new exampleHost (run (getSafeTimestamp exampleHost (VStr "soon")) world0)
    = Some d
    /\ run (formatDate exampleHost (VStr "soon")) world0
       = datePrefixOf exampleHost (Some d)
    /\ run (formatMessageDateTime exampleHost (VStr "soon")) world0
       = (dateText exampleHost (Some d), timeText exampleHost (Some d)).
Proof. apply getSafeTimestamp_gives_valid_date. reflexivity. Defined.

(** X6.  The time [formatMessageDateTime] prints is two digits of hours, a
    colon and two digits of minutes, zero-padded. *)
Theorem formatMessageDateTime_time_shape (h : Host) (t : jsval) (w : World) :
  readingInRange h (S (ticks w)) ->
  exists H M,
    (0 <= H < 24)%Z /\ (0 <= M < 60)%Z
    /\ snd (run (formatMessageDateTime h t) w)
       = String (digitChar (H / 10)) (String (digitChar (H mod 10))
           (String ":" (String (digitChar (M / 10))
              (String (digitChar (M mod 10)) EmptyString)))).
Proof.
  intros Hr. unfold run. rewrite formatMessageDateTime_unfold. cbn [fst snd].
  assert (Hd : exists d, Date_new h (fst (getSafeTimestamp h t w)) = Some d).
  { destruct (getSafeTimestamp_cases h t w) as [(d & Hd & _ & ->) | ->]; cbn [fst].
    - now exists d.
    - exists (clock h (S (ticks w))). now rewrite Date_new_VNum. }
  destruct Hd as [d ->].
  exists (HourFromTime (LocalTime h d)), (MinFromTime (LocalTime h d)).
  pose proof (HourFromTime_range (LocalTime h d)) as HH.
  pose proof (MinFromTime_range (LocalTime h d)) as HM.
  split; [exact HH|]. split; [exact HM|].
  unfold timeText, getHours, getMinutes. cbn [option_map].
  rewrite !pad2_digits by lia. reflexivity.
Qed.

Lemma formatMessageDateTime_time_shape_witness :
  exists H M,
    (0 <= H < 24)%Z /\ (0 <= M < 60)%Z
    /\ snd (run (formatMessageDateTime exampleHost sampleDay2) world0)
       = String (digitChar (H / 10)) (String (digitChar (H mod 10))
           (String ":" (String (digitChar (M / 10))
              (String (digitChar (M mod 10)) EmptyString)))).
Proof. apply formatMessageDateTime_time_shape. reflexivity. Defined.

(** X7.  The renderer of [convert.js] normalizes a timestamp twice; a timestamp
    that is present, parses and is not later than the two clock readings
    it is compared with is shown with its own date and time. *)
Theorem messageDateTime_keeps_valid_timestamp (h : Host) (m : message) (d : Z)
    (w : World) :
  truthy (timestamp m) = true ->
  Date_new h (timestamp m) = Some d ->
  (d <= clock h (ticks w))%Z -> (d <= clock h (S (ticks w)))%Z ->
  run (messageDateTime h m) w = (dateText h (Some d), timeText h (Some d)).
Proof.
  intros Ht Hd H1 H2. unfold run, messageDateTime, bind. rewrite Ht.
  rewrite (getSafeTimestamp_valid h _ w d Hd H1).
  rewrite formatMessageDateTime_unfold.
  rewrite (getSafeTimestamp_valid h _ {| ticks := S (ticks w); console := console w |}
             d Hd H2).
  cbn [fst]. now rewrite Hd.
Qed.

Lemma messageDateTime_keeps_valid_timestamp_witness :
  run (messageDateTime exampleHost (plainMessage "user" "a" sampleDay2)) world0
  = ("2024-03-02", "09:00").
Proof.
  apply (messageDateTime_keeps_valid_timestamp exampleHost
           (plainMessage "user" "a" sampleDay2) 1709370000000 world0);
    [reflexivity | reflexivity | vm_compute; discriminate | vm_compute; discriminate].
Defined.

(** X8.  A timestamp that is absent or falsy, does not parse, or is later than
    the clock is shown with the date and time of a clock reading taken
    while the message is rendered, when the clock does not run backwards. *)
Theorem messageDateTime_falls_back_to_now (h : Host) (m : message) (w : World) :
  (truthy (timestamp m) = false \/ Date_new h (timestamp m) = None
   \/ exists d, Date_new h (timestamp m) = Some d /\ (clock h (ticks w) < d)%Z) ->
  readingInRange h (ticks w) -> readingInRange h (S (ticks w)) ->
  (clock h (ticks w) <= clock h (S (ticks w)))%Z ->
  (clock h (S (ticks w)) <= clock h (S (S (ticks w))))%Z ->
  exists n,
    (n = ticks w \/ n = S (ticks w))
    /\ run (messageDateTime h m) w
       = (dateText h (Some (clock h n)), timeText h (Some (clock h n))).
Proof.
  intros Hbad R0 R1 M0 M1. unfold run, messageDateTime, bind.
  destruct (truthy (timestamp m)) eqn:Ht.
  - exists (S (ticks w)). split; [now right|].
    rewrite getSafeTimestamp_invalid
      by (destruct Hbad as [Hf | [Hn | Hl]]; [discriminate | now left | now right]).
    rewrite formatMessageDateTime_unfold.
    rewrite (getSafeTimestamp_valid h (VNum (clock h (S (ticks w))))
               {| ticks := S (S (ticks w)); console := console w |}
               (clock h (S (ticks w))) R1 M1).
    cbn [fst]. now rewrite Date_new_VNum, R1.
  - exists (ticks w). split; [now left|].
    unfold Date_now, ret. rewrite formatMessageDateTime_unfold.
    rewrite (getSafeTimestamp_valid h (VNum (clock h (ticks w)))
               {| ticks := S (ticks w); console := console w |}
               (clock h (ticks w)) R0 M0).
    cbn [fst]. now rewrite Date_new_VNum, R0.
Qed.

Lemma messageDateTime_falls_back_to_now_witness :
  exists n,
    (n = 0 \/ n = 1)
    /\ run (messageDateTime exampleHost (plainMessage "user" "a" (VStr "soon"))) world0
       = (dateText exampleHost (Some (clock exampleHost n)),
          timeText exampleHost (Some (clock exampleHost n))).
Proof.
  apply (messageDateTime_falls_back_to_now exampleHost
           (plainMessage "user" "a" (VStr "soon")) world0);
    [right; left; reflexivity | reflexivity | reflexivity
    | vm_compute; discriminate | vm_compute; discriminate].
Defined.

(** X9.  A [null] timestamp converts to the number 0.  The renderer of the
    earlier version, which formats [msg.timestamp] directly, shows it as
    the epoch; the renderer of [convert.js] tests the timestamp first and
    shows the current time. *)
Theorem null_timestamp_epoch_or_now (h : Host) (m : message) (w : World) :
  timestamp m = VNull ->
  (0 <= clock h (ticks w))%Z -> readingInRange h (ticks w) ->
  (clock h (ticks w) <= clock h (S (ticks w)))%Z ->
  run (formatMessageDateTime h (timestamp m)) w
    = (dateText h (Some 0%Z), timeText h (Some 0%Z))
  /\ run (messageDateTime h m) w
     = (dateText h (Some (clock h (ticks w))), timeText h (Some (clock h (ticks w)))).
Proof.
  intros Hn H0 R0 M0. split.
  - unfold run. rewrite formatMessageDateTime_unfold, Hn.
    rewrite (getSafeTimestamp_valid h VNull w 0%Z eq_refl H0). reflexivity.
  - unfold run, messageDateTime, bind. rewrite Hn. cbn [truthy].
    unfold Date_now, ret. rewrite formatMessageDateTime_unfold.
    rewrite (getSafeTimestamp_valid h (VNum (clock h (ticks w)))
               {| ticks := S (ticks w); console := console w |}
               (clock h (ticks w)) R0 M0).
    cbn [fst]. now rewrite Date_new_VNum, R0.
Qed.

Lemma null_timestamp_epoch_or_now_witness :
  run (formatMessageDateTime exampleHost VNull) world0 = ("1970-01-01", "00:00")
  /\ run (messageDateTime exampleHost (plainMessage "user" "a" VNull)) world0
     = ("2033-05-18", "03:33").
Proof.
  apply (null_timestamp_epoch_or_now exampleHost (plainMessage "user" "a" VNull) world0);
    [reflexivity | vm_compute; discriminate | reflexivity | vm_compute; discriminate].
Defined.

(** X30.  [getSafeTimestamp] returns its argument unchanged when
    [new Date] of it is a valid date that is not later than the clock
    reading taken for the check; when that date is invalid, as for an
    unparsable string and for [undefined], or is later than that reading,
    it returns the reading of [Date.now()] taken next in the same call,
    whatever the clock shows. *)
Theorem getSafeTimestamp_keeps_or_reads_the_clock (h : Host) (t : jsval)
    (w : World) :
  (forall d, Date_new h t = Some d -> (d <= clock h (ticks w))%Z ->
             run (getSafeTimestamp h t) w = t)
  /\ ((Date_new h t = None
       \/ exists d, Date_new h t = Some d /\ (clock h (ticks w) < d)%Z) ->
      run (getSafeTimestamp h t) w = VNum (clock h (S (ticks w)))).
Proof.
  split.
  - intros d Hd Hle. unfold run. now rewrite (getSafeTimestamp_valid h t w d).
  - intros H. unfold run. now rewrite getSafeTimestamp_invalid.
Qed.

(** A past timestamp is kept, an unparsable one becomes the second clock
    reading of the call. *)
Lemma getSafeTimestamp_keeps_or_reads_the_clock_witness :
  run (getSafeTimestamp exampleHost (VStr "2024-03-01T10:15:00Z")) world0
    = VStr "2024-03-01T10:15:00Z"
  /\ run (getSafeTimestamp exampleHost (VStr "soon")) world0 = VNum 2000000000001.
Proof.
  split.
  - apply (proj1 (getSafeTimestamp_keeps_or_reads_the_clock exampleHost _ world0)
             1709288100000%Z).
    + reflexivity.
    + vm_compute. discriminate.
  - apply (proj2 (getSafeTimestamp_keeps_or_reads_the_clock exampleHost
                    (VStr "soon") world0)).
    left. reflexivity.
Defined.

(** ** More on the renderer of [convert.js] *)

Section RendererMore.

Variable h : Host.

Lemma forEach_app {A S} (f : S -> A -> M S) xs ys s w :
  forEach f (xs ++ ys) s w
  = forEach f ys (fst (forEach f xs s w)) (snd (forEach f xs s w)).
Proof.
  revert s w. induction xs as [|x xs IH]; intros s w; [reflexivity|].
  cbn [app]. now rewrite !forEach_cons, IH.
Qed.

(** The callback only appends. *)
Lemma renderMessage_appends st msg w :
  exists ps, markdown (fst (renderMessage h st msg w)) = (markdown st ++ ps)%list.
Proof.
  destruct (validRole msg) as [[m r]|] eqn:Hv.
  - rewrite (renderMessage_valid h st msg m r w Hv). cbn [fst markdown]. eauto.
  - rewrite (renderMessage_skipped h st msg w Hv). exists []. cbn [fst].
    now rewrite app_nil_r.
Qed.

Lemma forEach_appends msgs : forall st w,
  exists ps,
    markdown (fst (forEach (renderMessage h) msgs st w)) = (markdown st ++ ps)%list.
Proof.
  induction msgs as [|msg rest IH]; intros st w.
  - exists []. cbn. now rewrite app_nil_r.
  - rewrite forEach_cons.
    destruct (renderMessage_appends st msg w) as [ps Hps].
    destruct (IH (fst (renderMessage h st msg w)) (snd (renderMessage h st msg w)))
      as [qs Hqs].
    exists (ps ++ qs)%list. now rewrite Hqs, Hps, <- List.app_assoc.
Qed.

Lemma filter_isSeparator_messageBody R m time :
  filter isSeparator (messageBody R m time) = [Separator].
Proof.
  unfold messageBody. rewrite filter_app. cbn [filter isSeparator].
  replace (filter isSeparator _) with (@nil piece); [reflexivity|].
  symmetry. destruct (String.eqb R "SYSTEM"); [reflexivity|].
  cbn [filter]. unfold roleHeading.
  replace (isSeparator (if String.eqb R "ASSISTANT" then _ else _)) with false
    by (now destruct (String.eqb R "ASSISTANT")).
  cbn [isSeparator]. rewrite !filter_app.
  assert (Hlines : forall line ls,
             (forall a b, isSeparator (line a b) = false) ->
             filter isSeparator (linkLines line ls) = []).
  { intros line ls Hline. unfold linkLines.
    induction ls as [|l ls IH]; cbn [flat_map]; [reflexivity|].
    rewrite filter_app, IH, app_nil_r.
    destruct l as [lk|]; [|reflexivity].
    destruct (linkUrl (Some lk)); [cbn; now rewrite Hline | reflexivity]. }
  unfold linksSection, webSection.
  repeat match goal with
         | |- context [if ?b then _ else _] => destruct b
         end;
    cbn [filter isSeparator app]; rewrite ?Hlines by reflexivity; reflexivity.
Qed.

Lemma filter_isSeparator_dateHeadingFor st d :
  filter isSeparator (dateHeadingFor st d) = [].
Proof. unfold dateHeadingFor. now destruct (String.eqb d (lastDate st)). Qed.

Lemma forEach_separators msgs : forall st w,
  List.length (filter isSeparator (markdown (fst (forEach (renderMessage h) msgs st w))))
  = (List.length (filter isSeparator (markdown st)) + List.length (rendered msgs))%nat.
Proof.
  induction msgs as [|msg rest IH]; intros st w.
  - cbn. lia.
  - rewrite forEach_cons, IH. unfold rendered. cbn [filter].
    destruct (validRole msg) as [[m r]|] eqn:Hv.
    + assert (Hs : isSkipped msg = false) by (unfold isSkipped; now rewrite Hv).
      rewrite Hs. cbn [negb List.length].
      rewrite (renderMessage_valid h st msg m r w Hv). cbn [fst markdown].
      rewrite !filter_app, !length_app, filter_isSeparator_dateHeadingFor,
        filter_isSeparator_messageBody.
      cbn [List.length]. lia.
    + assert (Hs : isSkipped msg = true) by (unfold isSkipped; now rewrite Hv).
      rewrite Hs. cbn [negb]. rewrite (renderMessage_skipped h st msg w Hv).
      cbn [fst]. lia.
Qed.

Lemma dateHeadingFor_first date :
  date <> EmptyString -> dateHeadingFor renderState0 date = [DateHeading date].
Proof.
  intros H. unfold dateHeadingFor, renderState0. cbn [lastDate].
  apply String.eqb_neq in H. now rewrite H.
Qed.



(** With the sharp s the two comparisons differ: the upper case of the
    role below is [ASSISTANT], its lower case is not [assistant]. *)
Example sharp_s_in_a_role :
  let r := "a" ++ String (ascii_of_N 223) "istant" in
  Str.toUpperCase r = "ASSISTANT" /\ ~ isAssistantRole r
  /\ Str.upperIsSimple r = false.
Proof. cbn zeta. repeat split. unfold isAssistantRole. vm_compute. discriminate. Qed.

Lemma headingsFrom_incl ds : forall c x, In x (headingsFrom c ds) -> In x ds.
Proof.
  induction ds as [|d rest IH]; intros c x; cbn [headingsFrom]; [auto|].
  destruct (String.eqb d c).
  - intros H. right. eapply IH, H.
  - intros [-> | H]; [now left | right; eapply IH, H].
Qed.

Lemma headingsFrom_complete ds : forall c x,
  In x ds -> x <> c -> In x (headingsFrom c ds).
Proof.
  induction ds as [|d rest IH]; intros c x; cbn [headingsFrom In]; [tauto|].
  intros Hin Hne. destruct (String.eqb_spec d c) as [->|Hd].
  - destruct Hin as [-> | Hin]; [congruence | now apply IH].
  - destruct (string_dec x d) as [->|Hx]; [now left|].
    right. destruct Hin as [-> | Hin]; [congruence | now apply IH].
Qed.

Lemma headingsFrom_noRepeat ds : forall c,
  noRepeat (headingsFrom c ds)
  /\ match headingsFrom c ds with
     | [] => True
     | x :: _ => x <> c
     end.
Proof.
  induction ds as [|d rest IH]; intros c; cbn [headingsFrom]; [now split|].
  destruct (String.eqb_spec d c) as [->|Hd]; [apply IH|].
  destruct (IH d) as [Hn Hh]. split; [|exact Hd].
  cbn [noRepeat]. split; [|exact Hn].
  destruct (headingsFrom d rest); [exact I | congruence].
Qed.

Lemma contiguous_tail x l : contiguous (x :: l) -> contiguous l.
Proof.
  intros H a b c d E. apply (H (x :: a) b c d). now rewrite E.
Qed.

Lemma headingsFrom_NoDup ds : forall c,
  contiguous (c :: ds) -> NoDup (c :: headingsFrom c ds).
Proof.
  induction ds as [|d rest IH]; intros c Hc; cbn [headingsFrom].
  - constructor; [intros [] | constructor].
  - destruct (String.eqb_spec d c) as [->|Hd].
    + apply IH. now apply contiguous_tail in Hc.
    + pose proof (IH d (contiguous_tail _ _ Hc)) as Hnd.
      constructor; [|exact Hnd].
      intros [E | Hin]; [congruence|].
      apply headingsFrom_incl in Hin. apply in_split in Hin as (l1 & l2 & ->).
      apply Hd. apply (Hc [] (d :: l1) l2 c); [reflexivity | now left].
Qed.

End RendererMore.

(** X10.  One blank separator line is appended per message that has a role, and
    none for the others. *)
Theorem one_separator_per_rendered_message (h : Host)
    (msgs : list (option message)) (w : World) :
  List.length (filter isSeparator (run (renderMessages h msgs) w))
  = List.length (rendered msgs).
Proof.
  unfold run, renderMessages, bind, ret.
  pose proof (forEach_separators h msgs renderState0 w) as H.
  destruct (forEach (renderMessage h) msgs renderState0 w). exact H.
Qed.

(** X11.  The document of a chat whose array holds no message with a role is
    the empty string, not the placeholder; any other document starts
    with the date heading of the first such message. *)
Theorem document_starts_with_date_heading (h : Host) (t : string)
    (msgs : list (option message)) (w : World) :
  let doc := run (convertChatToMarkdown h
                    (Some {| title := t; messages := Some msgs |})) w in
  (rendered msgs = [] -> doc = EmptyString)
  /\ (rendered msgs <> [] ->
      exists date rest, date <> EmptyString
                        /\ doc = "## " ++ date ++ nl ++ nl ++ rest).
Proof.
  cbn zeta. unfold run. cbn [convertChatToMarkdown]. unfold bind, ret.
  destruct (forEach_rendered h msgs renderState0 w (console w)) as [H1 _].
  rewrite withConsole_same in H1.
  assert (Hps : fst (renderMessages h msgs w)
                = markdown (fst (forEach (renderMessage h) (rendered msgs)
                                   renderState0 w))).
  { unfold renderMessages, bind, ret. rewrite H1.
    now destruct (forEach (renderMessage h) msgs renderState0 w). }
  destruct (renderMessages h msgs w) as [ps w']. cbn [fst] in *. subst ps.
  split.
  - intros ->. reflexivity.
  - intros Hne. destruct (rendered msgs) as [|msg rest] eqn:Hr; [congruence|].
    assert (Hv : isSkipped msg = false).
    { assert (Hin : In msg (rendered msgs)) by (rewrite Hr; now left).
      unfold rendered in Hin. apply filter_In in Hin as [_ Hin].
      now apply negb_true_iff in Hin. }
    unfold isSkipped in Hv. destruct (validRole msg) as [[m r]|] eqn:Hvr; [|discriminate].
    rewrite forEach_cons, (renderMessage_valid h _ msg m r w Hvr). cbn [fst snd].
    pose proof (messageDateTime_date_nonempty h m w) as Hd.
    rewrite (dateHeadingFor_first _ Hd).
    match goal with
    | |- context [forEach _ rest ?s ?w1] =>
        destruct (forEach_appends h rest s w1) as [qs Hqs]; rewrite Hqs
    end.
    do 2 eexists. split; [exact Hd|].
    change (markdown renderState0) with (@nil piece). cbn [markdown app].
    cbn [text fold_right show]. rewrite !append_assoc. reflexivity.
Qed.

Lemma document_starts_with_date_heading_witness :
  exists date rest,
    date <> EmptyString
    /\ run (convertChatToMarkdown exampleHost
              (Some {| title := "t"; messages := Some twoDays |})) world0
       = "## " ++ date ++ nl ++ nl ++ rest.
Proof.
  apply (proj2 (document_starts_with_date_heading exampleHost "t" twoDays world0)).
  discriminate.
Defined.



(** X13.  The renderer never emits the same date heading twice in a row. *)
Theorem date_headings_never_repeat (h : Host) (msgs : list (option message))
    (w : World) :
  noRepeat (dateHeadings (run (renderMessages h msgs) w)).
Proof.
  unfold run, renderMessages, bind, ret.
  pose proof (forEach_dateHeadings h msgs renderState0 w) as H.
  destruct (forEach (renderMessage h) msgs renderState0 w) as [st' w'].
  cbn [fst] in *. rewrite H.
  cbn [renderState0 markdown lastDate dateHeadings flat_map app].
  apply headingsFrom_noRepeat.
Qed.

(** X14.  When the messages of every date are next to each other, as in a
    session in chronological order, every date of the session gets
    exactly one heading. *)
Theorem one_heading_per_date (h : Host) (msgs : list (option message))
    (w : World) :
  let headings := dateHeadings (run (renderMessages h msgs) w) in
  let dates := run (messageDates h msgs) w in
  contiguous dates ->
  NoDup headings /\ forall d, In d headings <-> In d dates.
Proof.
  cbn zeta. intros Hc.
  assert (H : dateHeadings (run (renderMessages h msgs) w)
              = headingsFrom EmptyString (run (messageDates h msgs) w)).
  { unfold run, renderMessages, bind, ret.
    pose proof (forEach_dateHeadings h msgs renderState0 w) as H.
    destruct (forEach (renderMessage h) msgs renderState0 w). exact H. }
  rewrite H. pose proof (messageDates_nonempty h msgs w) as Hne.
  fold (run (messageDates h msgs) w) in Hne.
  set (dates := run (messageDates h msgs) w) in *.
  split.
  - assert (Hc' : contiguous (EmptyString :: dates)).
    { intros a b c d E x Hx. destruct a as [|a0 a].
      - injection E as <- E. exfalso.
        rewrite Forall_forall in Hne. apply (Hne EmptyString); [|reflexivity].
        rewrite E. apply in_or_app. right. now left.
      - injection E as _ E. now apply (Hc a b c d). }
    pose proof (headingsFrom_NoDup dates EmptyString Hc') as Hnd.
    now inversion Hnd.
  - intros d. split.
    + apply headingsFrom_incl.
    + intros Hin. apply headingsFrom_complete; [exact Hin|].
      rewrite Forall_forall in Hne. now apply Hne.
Qed.

(** X15.  Rendering only appends: the document of the first messages of a
    session is the beginning of the document of the session. *)
Theorem document_of_a_prefix (h : Host) (xs ys : list (option message))
    (w : World) :
  exists ps,
    run (renderMessages h (xs ++ ys)) w
    = (run (renderMessages h xs) w ++ ps)%list
    /\ text (run (renderMessages h (xs ++ ys)) w)
       = text (run (renderMessages h xs) w) ++ text ps.
Proof.
  unfold run, renderMessages, bind, ret.
  pose proof (forEach_app (renderMessage h) xs ys renderState0 w) as Happ.
  destruct (forEach (renderMessage h) xs renderState0 w) as [st1 w1] eqn:E1.
  cbn [fst snd] in Happ.
  destruct (forEach_appends h ys st1 w1) as [ps Hps].
  rewrite Happ. destruct (forEach (renderMessage h) ys st1 w1) as [st2 w2].
  cbn [fst] in *. exists ps. rewrite Hps. split; [reflexivity | apply text_app].
Qed.

Lemma one_heading_per_date_witness :
  NoDup (dateHeadings (run (renderMessages exampleHost twoDays) world0)).
Proof.
  refine (proj1 (one_heading_per_date exampleHost twoDays world0 _)).
  assert (Hd : run (messageDates exampleHost twoDays) world0
               = ["2024-03-01"; "2024-03-01"; "2024-03-02"])
    by (vm_compute; reflexivity).
  rewrite Hd. intros a b c d E x Hx.
  destruct b as [|b0 b]; [destruct Hx|]. exfalso.
  assert (Hlen : (List.length a + List.length b + List.length c = 0)%nat).
  { apply (f_equal (@List.length string)) in E.
    rewrite length_app in E. cbn [List.length] in E.
    rewrite length_app in E. cbn [List.length] in E. lia. }
  destruct a; [|cbn in Hlen; lia]. destruct b; [|cbn in Hlen; lia].
  destruct c; [|cbn in Hlen; lia].
  cbn [app] in E. injection E as E1 E2 E3. rewrite <- E1 in E3. discriminate E3.
Defined.

(** ** More on [parseCherryStudio] *)

Section CherryMore.

Variable h : Host.

Lemma lowerChar_idempotent c : Str.lowerChar (Str.lowerChar c) = Str.lowerChar c.
Proof. destruct c as [[] [] [] [] [] [] [] []]; reflexivity. Qed.

Lemma toLowerCase_idempotent s :
  Str.toLowerCase (Str.toLowerCase s) = Str.toLowerCase s.
Proof.
  unfold Str.toLowerCase. induction s as [|c r IH]; simpl; [reflexivity|].
  now rewrite lowerChar_idempotent, IH.
Qed.

Lemma toLowerCase_nonempty s : s <> EmptyString -> Str.toLowerCase s <> EmptyString.
Proof. destruct s; [congruence | discriminate]. Qed.

Lemma optString_nonempty s d : d <> EmptyString -> optString s d <> EmptyString.
Proof.
  intros Hd. unfold optString. destruct s as [x|]; [|exact Hd].
  now apply orElse_nonempty.
Qed.

Lemma lastLine_snoc w c e :
  console w = (c ++ [e])%list -> lastLine w = Some e.
Proof.
  intros H. unfold lastLine. rewrite H, map_app. cbn [List.map].
  apply last_last.
Qed.

Lemma convertLogItem_logMessage e w m w' :
  convertLogItem h e w = (Ok m, w') -> logMessage h e m /\ console w' = console w.
Proof.
  unfold convertLogItem, logMessage. destruct (truthy (e_timestamp e)).
  - destruct (Date_new h (e_timestamp e)) as [t|]; [|discriminate].
    intros E. injection E as <- <-. split; [|reflexivity].
    eexists. split; [reflexivity|]. now exists t.
  - unfold bind, Date_now, ret. intros E. injection E as <- <-.
    split; [|reflexivity]. eexists. split; [reflexivity|]. now eexists.
Qed.

Lemma mapLog_logMessages log : forall w ms w',
  mapLog h log w = (Ok ms, w') ->
  Forall2 (entryMessage h) log ms /\ console w' = console w.
Proof.
  induction log as [|x rest IH]; intros w ms w'; cbn [mapLog].
  - unfold ret. intros E. injection E as <- <-. split; [constructor | reflexivity].
  - unfold bind, ret.
    destruct (convertLogEntry h x w) as [[m|] w1] eqn:Hc; [|discriminate].
    destruct (mapLog h rest w1) as [[ms'|] w2] eqn:Hm; [|discriminate].
    intros E. injection E as <- <-.
    destruct x as [e| |]; cbn [convertLogEntry] in Hc;
      [|discriminate Hc|discriminate Hc].
    apply convertLogItem_logMessage in Hc as [Hl Hc1].
    apply IH in Hm as [Hall Hc2].
    split; [now constructor | congruence].
Qed.

(** Every chat the [try] block returns has an array of messages that all
    have a role, and there is at most one. *)
Lemma chatsOfPayload_shape p t w chats w' :
  chatsOfPayload h p t w = (Ok chats, w') ->
  chats = []
  \/ exists log ms,
       p_log p = Some log /\ Forall2 (entryMessage h) log ms
       /\ chats = [ {| title := t; messages := Some (List.map Some ms) |} ].
Proof.
  unfold chatsOfPayload. destruct (p_log p) as [log|].
  - unfold bind. destruct (mapLog h log w) as [[ms|] w1] eqn:Hm; [|discriminate].
    unfold say, ret. intros E. injection E as <- <-.
    right. exists log, ms. apply mapLog_logMessages in Hm as [Hall _]. auto.
  - unfold bind, say, ret. intros E. injection E as <- <-. now left.
Qed.

Lemma chatsOfJson_shape jsonContent t w chats w' :
  chatsOfJson h jsonContent t w = (Ok chats, w') ->
  chats = []
  \/ exists p log ms,
       JSON_parse h jsonContent = Some (Some p)
       /\ p_log p = Some log /\ Forall2 (entryMessage h) log ms
       /\ chats = [ {| title := optString (p_title p) t;
                       messages := Some (List.map Some ms) |} ].
Proof.
  unfold chatsOfJson. destruct (JSON_parse h jsonContent) as [[p|]|];
    try discriminate.
  intros E. apply chatsOfPayload_shape in E as [-> | (log & ms & H1 & H2 & ->)].
  - now left.
  - right. exists p, log, ms. auto.
Qed.

Lemma parseCherryStudioBody_shape filePath t w chats w' :
  parseCherryStudioBody h filePath t w = (Ok chats, w') ->
  chats = []
  \/ exists jsonContent p log ms,
       jsonText h filePath = Some jsonContent
       /\ JSON_parse h jsonContent = Some (Some p)
       /\ p_log p = Some log /\ Forall2 (entryMessage h) log ms
       /\ chats = [ {| title := optString (p_title p) t;
                       messages := Some (List.map Some ms) |} ].
Proof.
  unfold parseCherryStudioBody, jsonText.
  destruct (endsWith filePath ".zip").
  - destruct (openZip h filePath) as [zipEntries|]; [|discriminate].
    destruct (find isJsonEntry zipEntries) as [e|].
    + unfold bind, say. intros E.
      apply chatsOfJson_shape in E as [-> | (p & log & ms & H1 & H2 & H3 & ->)];
        [now left|].
      right. exists (entryText e), p, log, ms. auto.
    + unfold bind, say, ret. intros E. injection E as <- <-. now left.
  - destruct (endsWith filePath ".json").
    + unfold bind, say. destruct (readFileSync h filePath) as [jsonContent|];
        [|discriminate].
      intros E.
      apply chatsOfJson_shape in E as [-> | (p & log & ms & H1 & H2 & H3 & ->)];
        [now left|].
      right. exists jsonContent, p, log, ms. auto.
    + unfold bind, say, ret. intros E. injection E as <- <-. now left.
Qed.

Lemma logMessage_role e m : logMessage h e m -> role m = Some (cherryRole e).
Proof. intros (iso & -> & _). reflexivity. Qed.

Lemma entryMessage_role x m : entryMessage h x m -> role m <> None.
Proof.
  destruct x as [e| |]; cbn [entryMessage]; [|intros []|intros []].
  intros H. rewrite (logMessage_role e m H). discriminate.
Qed.

Lemma rendered_all msgs :
  Forall (fun m => role m <> None) msgs ->
  rendered (List.map Some msgs) = List.map Some msgs.
Proof.
  induction 1 as [|m msgs Hm _ IH]; [reflexivity|].
  unfold rendered in *. cbn [List.map filter].
  unfold isSkipped at 1, validRole. destruct (role m); [|congruence].
  cbn [negb]. now rewrite IH.
Qed.

End CherryMore.

(** X16.  The role of every message the adapter makes is in lower case, is not
    empty and is never the alias [you]. *)
Theorem cherryRole_normalized (e : logItem) :
  Str.toLowerCase (cherryRole e) = cherryRole e
  /\ cherryRole e <> EmptyString
  /\ cherryRole e <> "you".
Proof.
  unfold cherryRole.
  pose proof (optString_nonempty (e_role e) "unknown") as Hne.
  destruct (String.eqb_spec (Str.toLowerCase (optString (e_role e) "unknown")) "you")
    as [E|E].
  - repeat split; discriminate.
  - repeat split.
    + apply toLowerCase_idempotent.
    + apply toLowerCase_nonempty, Hne. discriminate.
    + exact E.
Qed.

(** X17.  For a file whose payload has a [log] array.  When no entry of
    the array is [null] or has a role that is not a string, and every
    timestamp is absent or parses, the adapter returns exactly one chat;
    its title is the [title] of the payload, or the base name of the file
    when the payload has none; it has one message per log entry, in order.
    When the array has such an entry, the callback throws on it and the
    adapter returns no chat. *)
Theorem parseCherryStudio_one_chat (h : Host) (filePath jsonContent : string)
    (p : payload) (log : list logEntry) (w : World) :
  jsonText h filePath = Some jsonContent ->
  JSON_parse h jsonContent = Some (Some p) ->
  p_log p = Some log ->
  if existsb (throwsOn h) log
  then run (parseCherryStudio h filePath) w = []
  else exists ms,
         run (parseCherryStudio h filePath) w
         = [ {| title := optString (p_title p)
                           (path_basename h filePath (path_extname h filePath));
                messages := Some (List.map Some ms) |} ]
         /\ Forall2 (entryMessage h) log ms.
Proof.
  intros Ht Hp Hl. destruct (existsb (throwsOn h) log) eqn:Hb.
  { exact (bad_timestamp_no_sessions h filePath jsonContent p log w Ht Hp Hl Hb). }
  unfold run.
  set (t := path_basename h filePath (path_extname h filePath)).
  destruct (parseCherryStudioBody_text h filePath jsonContent t
              (started filePath w) Ht) as (pre & Hpre & Hbody).
  set (w1 := withConsole (console (started filePath w) ++ pre) (started filePath w)) in *.
  destruct (mapLog_ok h log w1 Hb) as (ms & Hms & _).
  destruct (mapLog h log w1) as [r w2] eqn:Hm. cbn [fst] in Hms. subst r.
  exists ms. split.
  - assert (Hr : exists w',
               parseCherryStudioBody h filePath t (started filePath w)
               = (Ok [ {| title := optString (p_title p) t;
                          messages := Some (List.map Some ms) |} ], w')).
    { eexists. apply Hbody. unfold chatsOfJson, chatsOfPayload. rewrite Hp, Hl.
      unfold bind. fold w1. rewrite Hm. reflexivity. }
    destruct Hr as [w' Hr].
    now rewrite (parseCherryStudio_unfold h filePath w _ w' Hr).
  - now apply mapLog_logMessages in Hm.
Qed.

(** A log of two entries gives a chat of two messages, titled after the
    file; a log with a [null] entry gives no chat. *)
Lemma parseCherryStudio_one_chat_witness :
  (exists ms,
     run (parseCherryStudio exampleHost "chat.json") world0
     = [ {| title := "chat"; messages := Some (List.map Some ms) |} ]
     /\ List.length ms = 2%nat)
  /\ run (parseCherryStudio exampleHost "holes.json") world0 = [].
Proof.
  split.
  - destruct (parseCherryStudio_one_chat exampleHost "chat.json" "{log}" _ _ world0
                eq_refl eq_refl eq_refl) as (ms & H & Hall).
    exists ms. split; [exact H|].
    apply Forall2_length in Hall. now rewrite <- Hall.
  - exact (parseCherryStudio_one_chat exampleHost "holes.json" "{holes}" _ _ world0
             eq_refl eq_refl eq_refl).
Defined.

(** X18.  Whatever the file, the adapter returns at most one chat, and the
    renderer of [convert.js] skips none of its messages: all of them
    have a role. *)
Theorem parseCherryStudio_chats_render_whole (h : Host) (filePath : string)
    (w : World) :
  let chats := run (parseCherryStudio h filePath) w in
  (List.length chats <= 1)%nat
  /\ Forall (fun c => exists msgs, messages c = Some msgs /\ rendered msgs = msgs)
       chats.
Proof.
  cbn zeta. unfold run.
  destruct (parseCherryStudioBody h filePath
              (path_basename h filePath (path_extname h filePath))
              (started filePath w)) as [r w'] eqn:Hb.
  rewrite (parseCherryStudio_unfold h filePath w r w' Hb).
  destruct r as [chats|]; cbn [fst]; [|split; [cbn; lia | constructor]].
  apply parseCherryStudioBody_shape in Hb
    as [-> | (jc & p & log & ms & _ & _ & _ & Hall & ->)].
  - split; [cbn; lia | constructor].
  - split; [cbn; lia|]. constructor; [|constructor].
    eexists. split; [reflexivity|]. apply rendered_all.
    clear - Hall. induction Hall as [|x m log ms Hm _ IH]; constructor; [|exact IH].
    exact (entryMessage_role h x m Hm).
Qed.

(** X19.  A file that cannot be opened or read, or whose text is not JSON,
    gives no chat and an error on the console; nothing is thrown. *)
Theorem parseCherryStudio_unreadable (h : Host) (filePath : string) (w : World) :
  (endsWith filePath ".zip" = true /\ openZip h filePath = None)
  \/ (endsWith filePath ".zip" = false /\ endsWith filePath ".json" = true
      /\ readFileSync h filePath = None)
  \/ (exists jsonContent, jsonText h filePath = Some jsonContent
                          /\ JSON_parse h jsonContent = None) ->
  run (parseCherryStudio h filePath) w = []
  /\ lastLine (snd (parseCherryStudio h filePath w)) = Some (Error, parseError filePath).
Proof.
  intros H. unfold run.
  set (t := path_basename h filePath (path_extname h filePath)).
  assert (Hb : exists w', parseCherryStudioBody h filePath t (started filePath w)
                          = (Throw, w')).
  { destruct H as [[Hz Ho] | [(Hz & Hj & Hr) | (jc & Ht & Hp)]].
    - unfold parseCherryStudioBody. rewrite Hz, Ho. eexists. reflexivity.
    - unfold parseCherryStudioBody. rewrite Hz, Hj. unfold bind, say.
      rewrite Hr. eexists. reflexivity.
    - destruct (parseCherryStudioBody_text h filePath jc t (started filePath w) Ht)
        as (pre & _ & Hbody).
      eexists. apply Hbody. unfold chatsOfJson. rewrite Hp. reflexivity. }
  destruct Hb as [w' Hb]. rewrite (parseCherryStudio_unfold h filePath w Throw w' Hb).
  split; [reflexivity|]. cbn [snd]. eapply lastLine_snoc. reflexivity.
Qed.

Lemma parseCherryStudio_unreadable_witness :
  run (parseCherryStudio exampleHost "missing.zip") world0 = []
  /\ lastLine (snd (parseCherryStudio exampleHost "missing.zip" world0))
     = Some (Error, parseError "missing.zip").
Proof.
  apply parseCherryStudio_unreadable. left. split; reflexivity.
Defined.

(** ** [parseChatbox] *)

Section Chatbox.

Variable h : Host.
Variable parseJson : string -> option (option chatboxData).

Lemma chatsOfSessions_all ss : forall index,
  chatsOfSessions index (List.map Some ss)
  = Ok (List.map (fun p => chatOfSession (fst p) (snd p))
          (combine (seq index (List.length ss)) ss)).
Proof.
  induction ss as [|s ss IH]; intros index; [reflexivity|].
  cbn [List.map chatsOfSessions List.length seq combine fst snd].
  now rewrite IH.
Qed.

Lemma chatsOfSessions_null sessions : forall index,
  In None sessions -> chatsOfSessions index sessions = Throw.
Proof.
  induction sessions as [|s rest IH]; intros index; [intros []|].
  cbn [chatsOfSessions]. destruct s as [s|]; [|reflexivity].
  intros [E|Hin]; [discriminate|]. now rewrite IH.
Qed.

Lemma chatOfSession_title index s : title (chatOfSession index s) <> EmptyString.
Proof.
  cbn [chatOfSession title]. apply optString_nonempty, optString_nonempty.
  discriminate.
Qed.

Lemma parseChatbox_data filePath fileContent data w :
  readFileSync h filePath = Some fileContent ->
  parseJson fileContent = Some (Some data) ->
  forall sessions chats,
    d_sessions data = Some sessions ->
    chatsOfSessions 0 sessions = Ok chats ->
    parseChatbox h parseJson filePath w
    = (Ok chats,
       withConsole (console w ++ [ (Log, "[Stub] Parsing Chatbox file: " ++ filePath);
                                   (Log, foundLine chats) ]) w).
Proof.
  intros Hr Hp sessions chats Hs Hc. unfold parseChatbox, bind, say, ret.
  rewrite Hr, Hp, Hs, Hc. unfold withConsole. cbn [ticks console].
  now rewrite <- List.app_assoc.
Qed.

End Chatbox.

(** X20.  For a file with a [chat-sessions] array, [parseChatbox] returns one
    chat per session, in order, whether or not the file also has a
    top-level [messages] array.  The title of a chat is the name of the
    session, else its thread name, else [Chatbox Session] with the position
    of the session counted from 1, and is never empty. *)
Theorem parseChatbox_one_chat_per_session (h : Host)
    (parseJson : string -> option (option chatboxData))
    (filePath fileContent : string) (data : chatboxData)
    (ss : list chatboxSession) (w : World) :
  readFileSync h filePath = Some fileContent ->
  parseJson fileContent = Some (Some data) ->
  d_sessions data = Some (List.map Some ss) ->
  exists chats,
    run (parseChatbox h parseJson filePath) w = Ok chats
    /\ List.length chats = List.length ss
    /\ Forall (fun c => title c <> EmptyString) chats
    /\ forall i s, nth_error ss i = Some s ->
                   nth_error chats i = Some (chatOfSession i s).
Proof.
  intros Hr Hp Hs.
  pose proof (chatsOfSessions_all ss 0) as Hc.
  eexists. split; [|split; [|split]].
  - unfold run. now rewrite (parseChatbox_data h parseJson filePath fileContent data w
                               Hr Hp _ _ Hs Hc).
  - now rewrite length_map, length_combine, length_seq, Nat.min_id.
  - apply Forall_forall. intros c Hin. apply in_map_iff in Hin as ([i s] & <- & _).
    apply chatOfSession_title.
  - intros i s Hi.
    assert (Hnth : nth_error (combine (seq 0 (List.length ss)) ss) i = Some (i, s)).
    { clear - Hi. change i with (0 + i)%nat at 2. generalize 0%nat as k.
      revert i Hi. induction ss as [|s0 ss IH]; intros i Hi k.
      - now destruct i.
      - destruct i as [|i]; cbn [List.length seq combine nth_error] in *.
        + injection Hi as ->. now rewrite Nat.add_0_r.
        + rewrite (IH i Hi (S k)). f_equal. f_equal. lia. }
    now rewrite (map_nth_error _ _ _ Hnth).
Qed.

Lemma parseChatbox_one_chat_per_session_witness :
  exists chats,
    run (parseChatbox exampleHost (fun _ => Some (Some sampleChatboxData)) "chat.json")
        world0 = Ok chats
    /\ nth_error chats 1
       = Some {| title := "Chatbox Session 2"; messages := Some [] |}.
Proof.
  destruct (parseChatbox_one_chat_per_session exampleHost
              (fun _ => Some (Some sampleChatboxData)) "chat.json" "{log}"
              sampleChatboxData
              [ {| cs_name := Some "Trip"; cs_threadName := None;
                   cs_messages := MessagesArray twoDays |};
                {| cs_name := None; cs_threadName := None;
                   cs_messages := NoMessages |} ]
              world0 eq_refl eq_refl eq_refl) as (chats & H & _ & _ & Hn).
  exists chats. split; [exact H|]. exact (Hn 1%nat _ eq_refl).
Defined.

(** X21.  A file with neither a [chat-sessions] array nor a [messages] array
    gives no chat, a warning and the count 0. *)
Theorem parseChatbox_unknown_shape (h : Host)
    (parseJson : string -> option (option chatboxData))
    (filePath fileContent : string) (data : chatboxData) (w : World) :
  readFileSync h filePath = Some fileContent ->
  parseJson fileContent = Some (Some data) ->
  d_sessions data = None -> d_messages data = None ->
  parseChatbox h parseJson filePath w
  = (Ok [],
     withConsole
       (console w ++ [ (Log, "[Stub] Parsing Chatbox file: " ++ filePath);
                       (Warn, noSessionsWarning (path_basename h filePath EmptyString));
                       (Log, "[Stub] Found 0 chat sessions in Chatbox file.") ]) w).
Proof.
  intros Hr Hp Hs Hm. unfold parseChatbox, bind, say, ret.
  rewrite Hr, Hp, Hs, Hm. unfold withConsole. cbn [ticks console].
  now rewrite <- !List.app_assoc.
Qed.

Lemma parseChatbox_unknown_shape_witness :
  run (parseChatbox exampleHost
         (fun _ => Some (Some {| d_sessions := None; d_messages := None;
                                 d_title := Some "t"; d_name := None |}))
         "chat.json") world0
  = Ok [].
Proof.
  unfold run.
  rewrite (parseChatbox_unknown_shape exampleHost _ "chat.json" "{log}"
             {| d_sessions := None; d_messages := None;
                d_title := Some "t"; d_name := None |} world0);
    reflexivity.
Defined.

(** X22.  [parseChatbox] catches nothing: a file that cannot be read, a text
    that is not JSON, the payload [null] and a null session make the
    promise reject, where [parseCherryStudio] returns the empty list. *)
Theorem parseChatbox_rejects (h : Host)
    (parseJson : string -> option (option chatboxData))
    (filePath : string) (w : World) :
  readFileSync h filePath = None
  \/ (exists fileContent,
        readFileSync h filePath = Some fileContent
        /\ (parseJson fileContent = None \/ parseJson fileContent = Some None
            \/ exists data sessions,
                 parseJson fileContent = Some (Some data)
                 /\ d_sessions data = Some sessions /\ In None sessions)) ->
  run (parseChatbox h parseJson filePath) w = Throw.
Proof.
  intros H. unfold run, parseChatbox, bind, say, ret.
  destruct H as [-> | (fc & -> & [-> | [-> | (data & sessions & -> & -> & Hin)]])];
    try reflexivity.
  now rewrite (chatsOfSessions_null sessions 0 Hin).
Qed.

Lemma parseChatbox_rejects_witness :
  run (parseChatbox exampleHost (fun _ => None) "chat.json") world0 = Throw.
Proof.
  apply parseChatbox_rejects. right. exists "{log}". split; [reflexivity | now left].
Defined.

(** ** The file selection menu and the dispatch of [main] *)

Section Menu.

Variable h : Host.
Variables cherryFiles chatboxFiles : list string.

Lemma keypressHandler_invariant st key :
  menuInvariant h cherryFiles chatboxFiles st ->
  menuInvariant h cherryFiles chatboxFiles
    (keypressHandler h cherryFiles chatboxFiles st key).
Proof.
  destruct st as [idx screen | sel |]; cbn [keypressHandler]; [|auto|auto].
  intros [Hlt Hs].
  destruct (ctrl key && String.eqb (keyName key) "c"); [exact I|].
  destruct (String.eqb (keyName key) "up").
  { destruct (Nat.ltb_spec 0 idx); cbn [menuInvariant];
      [split; [lia | reflexivity] | auto]. }
  destruct (String.eqb (keyName key) "down").
  { destruct (Nat.ltb_spec idx (List.length (cherryFiles ++ chatboxFiles) - 1));
      cbn [menuInvariant]; [split; [lia | reflexivity] | auto]. }
  destruct (String.eqb (keyName key) "return"); [|cbn [menuInvariant]; auto].
  cbn [menuInvariant]. unfold itemAt.
  destruct (nth_error (cherryFiles ++ chatboxFiles) idx) as [file|] eqn:E.
  - exists idx, file. auto.
  - apply nth_error_None in E. lia.
Qed.

Lemma showFileSelectionMenu_invariant keys :
  menuInvariant h cherryFiles chatboxFiles
    (showFileSelectionMenu h cherryFiles chatboxFiles keys).
Proof.
  unfold showFileSelectionMenu.
  destruct (cherryFiles ++ chatboxFiles)%list as [|f rest] eqn:E; [exact I|].
  assert (H0 : menuInvariant h cherryFiles chatboxFiles
                 (Choosing 0 (displayMenu h cherryFiles chatboxFiles 0))).
  { cbn [menuInvariant]. rewrite E. cbn. split; [lia | reflexivity]. }
  revert H0. generalize (Choosing 0 (displayMenu h cherryFiles chatboxFiles 0)).
  induction keys as [|key keys IH]; intros st Hst; cbn [fold_left]; [exact Hst|].
  apply IH. now apply keypressHandler_invariant.
Qed.

Lemma isMarked_cursorMark b s : isMarked (cursorMark b ++ " " ++ s) = b.
Proof. now destruct b. Qed.

Lemma linesFrom_marked (base : string -> string) selectedIndex fileList :
  forall start,
    List.length (filter isMarked
                   (linesFrom start
                      (fun index file =>
                         cursorMark (Nat.eqb index selectedIndex) ++ " " ++ base file)
                      fileList))
    = if Nat.leb start selectedIndex
         && Nat.ltb selectedIndex (start + List.length fileList)
      then 1%nat else 0%nat.
Proof.
  induction fileList as [|file rest IH]; intros start; cbn [linesFrom filter].
  - cbn [List.length].
    destruct (Nat.leb_spec start selectedIndex), (Nat.ltb_spec selectedIndex (start + 0));
      cbn; try reflexivity; lia.
  - rewrite isMarked_cursorMark. specialize (IH (S start)).
    destruct (Nat.eqb_spec start selectedIndex) as [Heq|Hne];
      cbn [List.length]; rewrite IH;
      destruct (Nat.leb_spec (S start) selectedIndex),
        (Nat.ltb_spec selectedIndex (S start + List.length rest)),
        (Nat.leb_spec start selectedIndex),
        (Nat.ltb_spec selectedIndex (start + S (List.length rest)));
      cbn; try reflexivity; lia.
Qed.

Lemma linesFrom_shift (line : nat -> string -> string) k fileList : forall start,
  linesFrom start (fun index file => line (k + index)%nat file) fileList
  = linesFrom (k + start) line fileList.
Proof.
  induction fileList as [|file rest IH]; intros start; cbn [linesFrom]; [reflexivity|].
  rewrite IH. now rewrite Nat.add_succ_r.
Qed.

End Menu.

(** X23.  While the user is choosing, the selected index is the index of a
    listed file and the screen is the menu drawn for that index, whatever
    keys were pressed. *)
Theorem menu_index_stays_in_range (h : Host) (cherryFiles chatboxFiles : list string)
    (keys : list keypress) (selectedIndex : nat) (screen : list string) :
  showFileSelectionMenu h cherryFiles chatboxFiles keys
  = Choosing selectedIndex screen ->
  (selectedIndex < List.length cherryFiles + List.length chatboxFiles)%nat
  /\ screen = displayMenu h cherryFiles chatboxFiles selectedIndex.
Proof.
  intros E.
  pose proof (showFileSelectionMenu_invariant h cherryFiles chatboxFiles keys) as H.
  rewrite E in H. cbn [menuInvariant] in H. now rewrite length_app in H.
Qed.

Lemma menu_index_stays_in_range_witness :
  showFileSelectionMenu exampleHost ["a.zip"] ["b.json"]
    [keyOf "down"; keyOf "down"; keyOf "x"]
  = Choosing 1 (displayMenu exampleHost ["a.zip"] ["b.json"] 1)
  /\ (1 < 1 + 1)%nat.
Proof.
  split; [reflexivity|].
  apply (menu_index_stays_in_range exampleHost ["a.zip"] ["b.json"]
           [keyOf "down"; keyOf "down"; keyOf "x"] 1
           (displayMenu exampleHost ["a.zip"] ["b.json"] 1)).
  reflexivity.
Defined.



(** X25.  The menu marks exactly one line with the cursor when the index is
    the index of a listed file, and none otherwise. *)
Theorem displayMenu_marks_one_line (h : Host) (cherryFiles chatboxFiles : list string)
    (selectedIndex : nat) :
  List.length (filter isMarked (displayMenu h cherryFiles chatboxFiles selectedIndex))
  = if Nat.ltb selectedIndex (List.length cherryFiles + List.length chatboxFiles)
    then 1%nat else 0%nat.
Proof.
  unfold displayMenu. cbn zeta.
  rewrite (linesFrom_shift
             (fun index file =>
                cursorMark (Nat.eqb index selectedIndex) ++ " "
                ++ path_basename h file EmptyString)
             (List.length cherryFiles) chatboxFiles 0).
  rewrite !filter_app, !length_app, !linesFrom_marked.
  replace (List.length
             (filter isMarked
                (if Nat.eqb (List.length cherryFiles) 0 then _ else _)))
    with 0%nat by (now destruct (Nat.eqb (List.length cherryFiles) 0)).
  replace (List.length
             (filter isMarked
                (if Nat.eqb (List.length chatboxFiles) 0 then _ else _)))
    with 0%nat by (now destruct (Nat.eqb (List.length chatboxFiles) 0)).
  change (List.length (filter isMarked ["=== Cherry Studio files (.zip, .json) ==="]))
    with 0%nat.
  change (List.length (filter isMarked [nl ++ "=== Chatbox files (.json) ==="]))
    with 0%nat.
  change (List.length
            (filter isMarked
               [nl ++ "Use UP/DOWN arrows to select, ENTER to process, CTRL+C to exit."]))
    with 0%nat.
  destruct (Nat.leb_spec 0 selectedIndex); [|lia].
  destruct (Nat.ltb_spec selectedIndex (0 + List.length cherryFiles)),
    (Nat.leb_spec (List.length cherryFiles + 0) selectedIndex),
    (Nat.ltb_spec selectedIndex
       (List.length cherryFiles + 0 + List.length chatboxFiles)),
    (Nat.ltb_spec selectedIndex (List.length cherryFiles + List.length chatboxFiles));
    cbn; try reflexivity; lia.
Qed.

(** X26.  [main] reads the property [fileType] of the selection, which the menu
    stores as [type]: whatever is selected, also a Cherry Studio file,
    [main] takes the Chatbox branch. *)
Theorem main_always_takes_the_chatbox_branch (h : Host)
    (cherryFiles chatboxFiles : list string) (keys : list keypress)
    (selection : object) :
  showFileSelectionMenu h cherryFiles chatboxFiles keys = Resolved selection ->
  getProp selection "fileType" = VUndefined
  /\ mainParser selection = UseChatbox.
Proof.
  intros E.
  pose proof (showFileSelectionMenu_invariant h cherryFiles chatboxFiles keys) as H.
  rewrite E in H. cbn [menuInvariant] in H. destruct H as (idx & file & Hn & ->).
  split; reflexivity.
Qed.

Lemma main_always_takes_the_chatbox_branch_witness :
  showFileSelectionMenu exampleHost ["a.zip"] ["b.json"] [keyOf "return"]
  = Resolved [("filePath", VStr "a.zip"); ("type", VStr "cherry")]
  /\ mainParser [("filePath", VStr "a.zip"); ("type", VStr "cherry")] = UseChatbox.
Proof.
  split; [reflexivity|].
  apply (main_always_takes_the_chatbox_branch exampleHost ["a.zip"] ["b.json"]
           [keyOf "return"]).
  reflexivity.
Defined.

(** ** The two renderers compared *)

Section TwoRenderers.

Variable h : Host.

Lemma part000_renderMessages_throws msgs : forall st w,
  existsb isSkipped msgs = true ->
  fst (Part000.renderMessages h msgs st w) = Throw.
Proof.
  induction msgs as [|msg rest IH]; intros st w; cbn [existsb]; [discriminate|].
  intros H. cbn [Part000.renderMessages]. unfold bind.
  destruct (Part000.renderMessage h st msg w) as [[st'|] w1] eqn:Hr; [|reflexivity].
  apply IH. destruct (isSkipped msg) eqn:Hs; [|exact H].
  apply isSkipped_validRole in Hs. unfold Part000.renderMessage in Hr.
  rewrite Hs in Hr. discriminate.
Qed.

Lemma part000_linkLines_all (line : link -> piece) lks :
  Part000.linkLines line (List.map Some lks) = Ok (List.map line lks).
Proof.
  induction lks as [|lk lks IH]; [reflexivity|].
  cbn [List.map Part000.linkLines]. now rewrite IH.
Qed.

Lemma alwaysPast_formatMessageDateTime ts :
  alwaysPast h ts ->
  exists d, forall w,
    fst (formatMessageDateTime h ts w) = (dateText h (Some d), timeText h (Some d))
    /\ forall m, timestamp m = ts ->
         fst (messageDateTime h m w) = (dateText h (Some d), timeText h (Some d)).
Proof.
  intros (Ht & d & Hd & Hle). exists d. intros w. split.
  - rewrite formatMessageDateTime_unfold, (getSafeTimestamp_valid h ts w d Hd (Hle _)).
    cbn [fst]. now rewrite Hd.
  - intros m <-. unfold messageDateTime, bind. rewrite Ht.
    rewrite (getSafeTimestamp_valid h _ w d Hd (Hle _)).
    rewrite formatMessageDateTime_unfold.
    rewrite (getSafeTimestamp_valid h _ {| ticks := S (ticks w); console := console w |}
               d Hd (Hle _)).
    cbn [fst]. now rewrite Hd.
Qed.

Lemma linkLines_full ls :
  Forall fullLink ls ->
  Part000.linkLines Part000.linkLine ls = Ok (linkLines LinkLine ls).
Proof.
  induction 1 as [|l ls (lk & t & u & -> & Ht & Hne & Hu & Hun) _ IH]; [reflexivity|].
  cbn [Part000.linkLines]. rewrite IH. unfold linkLines. cbn [flat_map].
  unfold linkUrl, Part000.linkLine, linkText, Part000.showOpt. rewrite Hu, Ht.
  destruct u; [congruence|]. destruct t; [congruence|]. reflexivity.
Qed.

Lemma linkLines_web ls :
  Forall linkWithUrl ls ->
  Part000.linkLines Part000.webLinkLine ls = Ok (linkLines WebLinkLine ls).
Proof.
  induction 1 as [|l ls (lk & u & -> & Hu & Hun) _ IH]; [reflexivity|].
  cbn [Part000.linkLines]. rewrite IH. unfold linkLines. cbn [flat_map].
  unfold linkUrl, Part000.webLinkLine, linkText, Part000.showOpt, optString.
  rewrite Hu. destruct u; [congruence|]. reflexivity.
Qed.

Lemma messageBody_complete R m time :
  complete h m -> Part000.messageBody R m time = Ok (messageBody R m time).
Proof.
  intros (_ & Hc & _ & Hl & Hw). unfold Part000.messageBody, messageBody.
  destruct (content m) as [c|] eqn:Ec; [|congruence].
  assert (Hcontent : optString (Some c) EmptyString = c) by (now destruct c).
  rewrite Hcontent. cbn [Part000.showOpt].
  destruct (String.eqb R "SYSTEM"); [reflexivity|].
  unfold Part000.section, linksSection, webSection.
  destruct (nonEmpty (links m));
    [rewrite (linkLines_full _ Hl)|];
    (destruct (nonEmpty (webLinksOf m)); [rewrite (linkLines_web _ Hw)|]);
    f_equal; rewrite !app_comm_cons, <- !List.app_assoc; reflexivity.
Qed.

Lemma renderers_agree_loop msgs : forall st w w',
  Forall (complete h) msgs ->
  fst (Part000.renderMessages h (List.map Some msgs) st w)
  = Ok (fst (forEach (renderMessage h) (List.map Some msgs) st w')).
Proof.
  induction msgs as [|m rest IH]; intros st w w' Hall; [reflexivity|].
  inversion Hall as [|? ? Hm Hrest]; subst.
  cbn [List.map Part000.renderMessages]. rewrite forEach_cons. unfold bind.
  pose proof Hm as (Hr & _ & Hp & _).
  destruct (role m) as [r|] eqn:Er; [|congruence].
  rewrite (renderMessage_valid h st _ m r w' (validRole_Some m r Er)).
  destruct (alwaysPast_formatMessageDateTime _ Hp) as (d & Hd).
  destruct (Hd w) as [Hf _]. destruct (Hd w') as [_ Hmd]. specialize (Hmd m eq_refl).
  unfold Part000.renderMessage. rewrite (validRole_Some m r Er). unfold bind.
  destruct (formatMessageDateTime h (timestamp m) w) as [[date time] w1].
  cbn [fst] in Hf. injection Hf as -> ->.
  rewrite (messageBody_complete _ m _ Hm). unfold ret.
  rewrite Hmd. cbn [fst snd].
  rewrite (IH _ w1 (snd (messageDateTime h m w')) Hrest). f_equal. f_equal.
  unfold emit, dateHeadingFor, cursorAfter.
  destruct (String.eqb (dateText h (Some d)) (lastDate st)); cbn [markdown lastDate].
  - reflexivity.
  - now rewrite <- List.app_assoc.
Qed.

End TwoRenderers.

(** X27.  In the earlier version one null message or one message without a
    role, anywhere in the session, makes the conversion of the session
    throw: no document is produced. *)
Theorem part000_invalid_message_aborts (h : Host) (s : Part000.session) (w : World) :
  existsb isSkipped (Part000.s_messages s) = true ->
  run (Part000.convertChatToMarkdown h s) w = Throw.
Proof.
  intros H. unfold run, Part000.convertChatToMarkdown, bind.
  pose proof (part000_renderMessages_throws h (Part000.s_messages s)
                renderState0 w H) as Ht.
  destruct (Part000.renderMessages h (Part000.s_messages s) renderState0 w)
    as [[st|] w1]; [discriminate | reflexivity].
Qed.

Lemma part000_invalid_message_aborts_witness :
  run (Part000.convertChatToMarkdown exampleHost
         {| Part000.name := None; Part000.threadName := None;
            Part000.s_messages := [Some (plainMessage "user" "a" sampleDay1);
                                   Some roleless] |}) world0
  = Throw.
Proof. apply part000_invalid_message_aborts. reflexivity. Defined.

(** X28.  In the earlier version every link entry gets a line under the
    [{links}] marker, also one without a title or a url, which prints as
    [undefined]. *)
Theorem part000_every_link_gets_a_line (R : string) (m : message)
    (lks : list link) (time : string) :
  String.eqb R "SYSTEM" = false ->
  links m = Some (List.map Some lks) -> lks <> [] -> webLinksOf m = None ->
  Part000.messageBody R m time
  = Ok (roleHeading R m time :: Content (Part000.showOpt (content m))
        :: (if hasItems (pictures m) then [PicturesMarker] else [])
        ++ (if hasItems (files m) then [FilesMarker] else [])
        ++ LinksMarker :: List.map Part000.linkLine lks ++ [Separator])%list
  /\ show (Part000.linkLine {| l_title := None; l_url := None |})
     = "[undefined](undefined)" ++ nl.
Proof.
  intros HR Hl Hne Hw. split; [|reflexivity].
  unfold Part000.messageBody, Part000.section. rewrite HR, Hl, Hw.
  destruct lks as [|lk lks]; [congruence|].
  cbn [List.map nonEmpty elements]. rewrite (part000_linkLines_all _ (lk :: lks)).
  reflexivity.
Qed.

Lemma part000_every_link_gets_a_line_witness :
  Part000.messageBody "USER" urllessMessage "10:15"
  = Ok [ RoleHeading "USER" "10:15"; Content "see"; LinksMarker;
         LinkLine "Docs" "undefined"; Separator ].
Proof.
  apply (part000_every_link_gets_a_line "USER" urllessMessage
           [ {| l_title := Some "Docs"; l_url := None |} ] "10:15");
    [reflexivity | reflexivity | discriminate | reflexivity].
Defined.

(** X29.  On a session in which every message has a role, a content, a
    timestamp that parses and is not later than the clock, links with a
    title and a url and web links with a url, the renderer of the earlier
    version and the renderer of [convert.js] give the same document. *)
Theorem renderers_agree_on_complete_sessions (h : Host) (t : string)
    (s : Part000.session) (msgs : list message) (w w' : World) :
  Part000.s_messages s = List.map Some msgs ->
  Forall (complete h) msgs ->
  run (Part000.convertChatToMarkdown h s) w
  = Ok (run (convertChatToMarkdown h
               (Some {| title := t; messages := Some (List.map Some msgs) |})) w').
Proof.
  intros Hs Hall. unfold run, Part000.convertChatToMarkdown. cbn [convertChatToMarkdown].
  unfold bind, ret, renderMessages, bind, ret. rewrite Hs.
  pose proof (renderers_agree_loop h msgs renderState0 w w' Hall) as H.
  destruct (Part000.renderMessages h (List.map Some msgs) renderState0 w) as [r w1].
  destruct (forEach (renderMessage h) (List.map Some msgs) renderState0 w') as [st w2].
  cbn [fst] in *. now subst r.
Qed.

Lemma renderers_agree_on_complete_sessions_witness :
  run (Part000.convertChatToMarkdown exampleHost
         {| Part000.name := None; Part000.threadName := None;
            Part000.s_messages := [Some linkedMessage] |}) world0
  = Ok (run (convertChatToMarkdown exampleHost
               (Some {| title := "t"; messages := Some [Some linkedMessage] |}))
          world0).
Proof.
  apply (renderers_agree_on_complete_sessions exampleHost "t"
           {| Part000.name := None; Part000.threadName := None;
              Part000.s_messages := [Some linkedMessage] |} [linkedMessage]
           world0 world0 eq_refl).
  constructor; [|constructor].
  split; [discriminate|]. split; [discriminate|]. split; [|split].
  - split; [reflexivity|]. exists 1709288100000%Z. split; [reflexivity|].
    intros n. cbn [clock exampleHost]. lia.
  - constructor; [|constructor].
    exists docsLink, "Docs", "https://x". repeat split; discriminate.
  - constructor; [|constructor].
    eexists _, "https://y". repeat split; discriminate.
Defined.
